(** * The [app_home_opened] listener of the Slack GenAI agent

    A shallow embedding of [listeners/events/app_home_opened.py] and the
    properties of its single handler, [app_home_opened_callback].

    The handler is a straight-line procedure over three collaborators (the
    provider registry, the Redis user-state store, the Slack web client) and
    the process environment.  Collaborators are taken as oracles of a [world];
    every call to one, and every line printed or logged, is recorded in a
    trace, and a Python exception is a [Raise] result that [try_except]
    may catch.

    Modelling choices:
    - the event and [os.environ] are dicts from strings to strings; a missing
      key makes a subscript raise [KeyError] and [.get] return [None];
    - every registry entry carries a [str] under ["name"] and under
      ["provider"]: the [KeyError] or [AttributeError] that lines 26-27
      would raise on a malformed entry, outside any [try], is not modelled;
    - the store returns a pair whose components are [None] or a [str]; a
      result that is not a pair fails to unpack inside the [try] and counts
      as a raise; a pair with a component of another type ([bytes], say),
      on which line 49 would raise a [TypeError] outside any [try], is not
      modelled;
    - [str.lower] is the interpreter's and is a field of the [world];
    - [print] and [logger.error] always return;
    - the local [options] is named [opts]: [options] is the key of the
      static_select that receives it. *)

From Stdlib Require Import Ascii String NArith.
From stdpp Require Import base option list strings gmap.

Local Open Scope string_scope.
Local Open Scope list_scope.
Local Open Scope stdpp_scope.

(** ** Python values used by the handler *)

(** Instances of [Exception].  [KeyError] and [IndexError] are the two the
    handler's own subscripts can raise; anything a collaborator raises is an
    [OtherException] carrying its message.  Signals outside the [Exception]
    hierarchy (KeyboardInterrupt, SystemExit) are not modelled. *)
Inductive exn : Type :=
| KeyError (key : string)
| IndexError
| OtherException (msg : string).

(** [str(e)], as interpolated by [f"...{e}"].  For a [KeyError] this is the
    [repr] of the key, rendered here for keys without quote or backslash,
    such as the ["tab"] and ["user"] of the handler's own subscripts. *)
Definition exn_str (e : exn) : string :=
  match e with
  | KeyError key => "'" +:+ key +:+ "'"
  | IndexError => "list index out of range"
  | OtherException msg => msg
  end.

Inductive result (A : Type) : Type :=
| Ok (a : A)
| Raise (e : exn).
Arguments Ok {A} a.
Arguments Raise {A} e.

(** A value that is [None] or a [str]; its truth value is Python's. *)
Definition truthy (v : option string) : bool :=
  match v with
  | Some (String _ _) => true
  | Some EmptyString => false
  | None => false
  end.

(** Truth value of a variable holding [None] or a list. *)
Definition truthy_list {A : Type} (v : option (list A)) : bool :=
  match v with
  | Some (_ :: _) => true
  | Some [] => false
  | None => false
  end.

(** [s.startswith(p)]. *)
Definition startswith (s p : string) : bool := String.prefix p s.

(** [str.lower] itself is Unicode-aware and belongs to the interpreter: the
    handler receives it through the [world] below.  [ascii_lower] is what
    it does on ASCII text (the letters A..Z are mapped to a..z, every other
    byte is kept); it serves as [str.lower] in the sample worlds, whose
    provider names are ASCII. *)
Definition lower_ascii (c : ascii) : ascii :=
  let n := N_of_ascii c in
  if ((65 <=? n) && (n <=? 90))%N then ascii_of_N (n + 32) else c.

Fixpoint ascii_lower (s : string) : string :=
  match s with
  | EmptyString => EmptyString
  | String c s' => String (lower_ascii c) (ascii_lower s')
  end.

(** [s.isascii()]: every byte is below 128. *)
Fixpoint is_ascii (s : string) : bool :=
  match s with
  | EmptyString => true
  | String c s' => (N_of_ascii c <? 128)%N && is_ascii s'
  end.

(** What is known of [str.lower] whatever the interpreter: on ASCII text it
    is [ascii_lower]. *)
Definition lowers_ascii (lower : string -> string) : Prop :=
  forall s, is_ascii s = true -> lower s = ascii_lower s.

(** ** Block Kit data built by the handler *)

(** [{"type": ..., "text": ..., "emoji": ...}] *)
Record text_object : Type := TextObject {
  text_type : string;
  text : string;
  emoji : bool
}.

(** One dropdown entry, [{"text": {...}, "value": ...}]. *)
Record dropdown_option : Type := DropdownOption {
  option_text : text_object;
  value : string
}.

Record static_select : Type := StaticSelect {
  initial_option : dropdown_option;
  options : list dropdown_option;
  action_id : string
}.

(** [{"type": "text", "text": ..., "style": {"bold": ...}}] *)
Record rich_text_element : Type := RichTextElement {
  rt_text : string;
  rt_bold : bool
}.

Inductive block : Type :=
| header (t : text_object)
| divider
| rich_text (sections : list (list rich_text_element))
| actions (elements : list static_select).

Record view : Type := View {
  view_type : string;
  blocks : list block
}.

(** The value of one registry entry, [{"name": ..., "provider": ...}]. *)
Record model_info : Type := ModelInfo {
  name : string;
  provider : string
}.

(** ** Observable effects *)

Inductive effect : Type :=
| EPrint (line : string)
| EPrintErr (line : string)
| ELoggerError (msg : string)
| EGetAvailableProviders
| EGetRedisUserState (user_id : string) (is_app_home : bool)
    (redis_url : option string)
| ESetRedisUserState (user_id provider_name model_name : string)
    (redis_url : option string)
| EViewsPublish (user_id : string) (v : view).

(** The collaborators and the environment of one invocation.  The registry
    is a [dict]; [.items()] walks it in insertion order, so it is given as
    the list of its items.  [str_lower] is the interpreter's [str.lower],
    whose case mapping is that of its Unicode database. *)
Record world : Type := World {
  get_available_providers : result (list (string * model_info));
  environ : gmap string string;
  get_redis_user_state :
    string -> bool -> option string -> result (option string * option string);
  set_redis_user_state :
    string -> string -> string -> option string -> result unit;
  views_publish : string -> view -> result unit;
  str_lower : string -> string
}.

(** ** Trace-and-exception monad *)

Definition M (A : Type) : Type := (list effect * result A)%type.

Definition ret {A : Type} (a : A) : M A := ([], Ok a).

Definition bind {A B : Type} (c : M A) (k : A -> M B) : M B :=
  match c with
  | (t, Ok a) => let '(t', r) := k a in (t ++ t', r)
  | (t, Raise e) => (t, Raise e)
  end.

Notation "x <- c ;; k" := (bind c (fun x => k))
  (at level 100, c at next level, right associativity).
Notation "c ;; k" := (bind c (fun _ => k))
  (at level 100, right associativity).

(** [try: c  except Exception as e: h e] *)
Definition try_except {A : Type} (c : M A) (h : exn -> M A) : M A :=
  match c with
  | (t, Ok a) => (t, Ok a)
  | (t, Raise e) => let '(t', r) := h e in (t ++ t', r)
  end.

Definition raise {A : Type} (e : exn) : M A := ([], Raise e).

(** A call to a collaborator: the call is recorded, then it returns or
    raises what the oracle says. *)
Definition call {A : Type} (ev : effect) (r : result A) : M A := ([ev], r).

Definition print (line : string) : M unit := ([EPrint line], Ok tt).
Definition print_err (line : string) : M unit := ([EPrintErr line], Ok tt).
Definition logger_error (msg : string) : M unit := ([ELoggerError msg], Ok tt).

(** [d[key]] on a dict. *)
Definition getitem (d : gmap string string) (key : string) : M string :=
  match d !! key with
  | Some v => ret v
  | None => raise (KeyError key)
  end.

(** [l[-1]] *)
Definition getitem_last {A : Type} (l : list A) : M A :=
  match last l with
  | Some x => ret x
  | None => raise IndexError
  end.

Definition trace {A : Type} (c : M A) : list effect := fst c.
Definition outcome {A : Type} (c : M A) : result A := snd c.

(** ** The handler *)

Definition plain_text (s : string) : text_object :=
  {| text_type := "plain_text"; text := s; emoji := true |}.

(** The comprehension of lines 24-30: one option per registry item.
    [lower] stands for [str.lower]. *)
Definition build_options (lower : string -> string)
    (providers : list (string * model_info)) : list dropdown_option :=
  map (fun item : string * model_info =>
         let '(model_name, model_info) := item in
         {| option_text :=
              plain_text (name model_info +:+ " (" +:+ provider model_info +:+ ")");
            value := model_name +:+ " " +:+ lower (provider model_info) |})
      providers.

(** The test [if provider and model:], returning the two strings it has
    established to be non-empty. *)
Definition provider_and_model (provider model : option string)
  : option (string * string) :=
  if truthy provider && truthy model then
    match provider, model with
    | Some p, Some m => Some (p, m)
    | _, _ => None
    end
  else None.

(** The dropdown entries appended at lines 73-78 and 80-85. *)
Definition select_a_provider_genai : dropdown_option :=
  {| option_text := plain_text "Select a provider (GenAI used as fallback)";
     value := "null" |}.

Definition select_a_provider : dropdown_option :=
  {| option_text := plain_text "Select a provider"; value := "null" |}.

(** The [view] argument of lines 90-119. *)
Definition home_view (initial : dropdown_option) (opts : list dropdown_option)
  : view :=
  {| view_type := "home";
     blocks :=
       [ header (plain_text "Welcome to Sailor Home Page!");
         divider;
         rich_text [[ {| rt_text := "Pick an option"; rt_bold := true |} ]];
         actions [ {| initial_option := initial;
                      options := opts;
                      action_id := "pick_a_provider" |} ] ] |}.

Definition is_genai_agent (opt : dropdown_option) : bool :=
  startswith (value opt) "genai-agent".

(** Lines 37-44: best-effort read of the saved selection. *)
Definition retrieve_user_state (w : world) (user_id : string)
    (redis_url : option string) : M (option string * option string) :=
  if truthy redis_url then
    try_except
      (call (EGetRedisUserState user_id true redis_url)
            (get_redis_user_state w user_id true redis_url))
      (fun e =>
         print ("⚠️ Failed to get user state from Redis: " +:+ exn_str e) ;;
         ret (None, None))
  else ret (None, None).

(** Lines 46-66: the value of [initial_option] after the selection policy. *)
Definition choose_initial_option (w : world) (user_id : string)
    (redis_url : option string) (opts : list dropdown_option)
    (provider model : option string) : M (option (list dropdown_option)) :=
  match provider_and_model provider model with
  | Some (p, m) =>
      print ("📋 Retrieved user state from Redis - User: " +:+ user_id
             +:+ ", Provider: " +:+ p +:+ ", Model: " +:+ m) ;;
      let initial_option :=
        Some (List.filter (fun x => startswith (value x) m) opts) in
      (if negb (truthy_list initial_option) then
         print ("⚠️ No matching option found for model '" +:+ m
                +:+ "', using default")
       else ret tt) ;;
      ret initial_option
  | None =>
      print ("ℹ️ No provider selection found for user: " +:+ user_id) ;;
      let genai_api_url := environ w !! "GENAI_API_URL" in
      if truthy genai_api_url && existsb is_genai_agent opts then
        print ("🔄 Using genai-agent as default model for user: " +:+ user_id) ;;
        let initial_option := Some (List.filter is_genai_agent opts) in
        (if truthy_list initial_option && truthy redis_url then
           try_except
             (call (ESetRedisUserState user_id "genai" "genai-agent" redis_url)
                   (set_redis_user_state w user_id "genai" "genai-agent"
                      redis_url) ;;
              print ("✅ Saved default GenAI selection to Redis for user: "
                     +:+ user_id))
             (fun e =>
                print_err ("❌ Error saving default GenAI selection: "
                           +:+ exn_str e) ;;
                logger_error ("Error saving default GenAI selection: "
                              +:+ exn_str e))
         else ret tt) ;;
        ret initial_option
      else ret None
  end.

(** Lines 69-85: [options] after the placeholder has been appended, or not. *)
Definition with_placeholder (w : world) (opts : list dropdown_option)
    (initial_option : option (list dropdown_option)) : list dropdown_option :=
  if negb (truthy_list initial_option) then
    let genai_api_url := environ w !! "GENAI_API_URL" in
    if truthy genai_api_url && existsb is_genai_agent opts then
      opts ++ [select_a_provider_genai]
    else
      opts ++ [select_a_provider]
  else opts.

(** [initial_option[0] if initial_option else options[-1]] *)
Definition initial_or_last (initial_option : option (list dropdown_option))
    (opts : list dropdown_option) : M dropdown_option :=
  match initial_option with
  | Some (first :: _) => ret first
  | _ => getitem_last opts
  end.

(** Lines 87-124: build the view and publish it, logging any failure. *)
Definition publish_home (w : world) (user_id : string)
    (initial_option : option (list dropdown_option))
    (opts : list dropdown_option) : M unit :=
  try_except
    (initial <- initial_or_last initial_option opts ;;
     let v := home_view initial opts in
     call (EViewsPublish user_id v) (views_publish w user_id v) ;;
     print ("✅ Successfully published home view for user: " +:+ user_id))
    (fun e =>
       print_err ("❌ Error publishing home view: " +:+ exn_str e) ;;
       logger_error (exn_str e)).

Definition app_home_opened_callback (w : world) (event : gmap string string)
  : M unit :=
  tab <- getitem event "tab" ;;
  if negb (String.eqb tab "home") then ret tt else
  user_id <- getitem event "user" ;;
  print ("🏠 App Home opened by user: " +:+ user_id) ;;
  providers <- call EGetAvailableProviders (get_available_providers w) ;;
  let opts := build_options (str_lower w) providers in
  let redis_url := environ w !! "REDIS_URL" in
  state <- retrieve_user_state w user_id redis_url ;;
  initial_option <-
    choose_initial_option w user_id redis_url opts (fst state) (snd state) ;;
  let opts := with_placeholder w opts initial_option in
  publish_home w user_id initial_option opts.

(** ** Reading a trace *)

Definition is_store_read (ev : effect) : bool :=
  match ev with EGetRedisUserState _ _ _ => true | _ => false end.

Definition is_store_write (ev : effect) : bool :=
  match ev with ESetRedisUserState _ _ _ _ => true | _ => false end.

Definition is_publish (ev : effect) : bool :=
  match ev with EViewsPublish _ _ => true | _ => false end.

Definition is_registry_read (ev : effect) : bool :=
  match ev with EGetAvailableProviders => true | _ => false end.

(** The static_select elements of a view, in block order. *)
Definition selects_of_view (v : view) : list static_select :=
  flat_map (fun b => match b with actions elements => elements | _ => [] end)
           (blocks v).

(** The dropdowns handed to [views_publish] along a trace. *)
Definition published_selects (t : list effect) : list static_select :=
  flat_map (fun ev => match ev with
                      | EViewsPublish _ v => selects_of_view v
                      | _ => []
                      end) t.

(** The pair the handler holds after lines 32-46, when [if provider and
    model] succeeds. *)
Definition saved_selection (w : world) (user_id : string)
  : option (string * string) :=
  match outcome (retrieve_user_state w user_id (environ w !! "REDIS_URL")) with
  | Ok state => provider_and_model (fst state) (snd state)
  | Raise _ => None
  end.

(** The oracle update used to compare a failing store with an empty one. *)
Definition with_get_redis_user_state
    (f : string -> bool -> option string -> result (option string * option string))
    (w : world) : world :=
  {| get_available_providers := get_available_providers w;
     environ := environ w;
     get_redis_user_state := f;
     set_redis_user_state := set_redis_user_state w;
     views_publish := views_publish w;
     str_lower := str_lower w |}.

(** What the write at lines 59-66 leaves in the trace. *)
Definition save_default_trace (w : world) (user_id : string)
    (redis_url : option string) : list effect :=
  if truthy redis_url then
    ESetRedisUserState user_id "genai" "genai-agent" redis_url ::
    match set_redis_user_state w user_id "genai" "genai-agent" redis_url with
    | Ok _ =>
        [EPrint ("✅ Saved default GenAI selection to Redis for user: "
                 +:+ user_id)]
    | Raise e =>
        [EPrintErr ("❌ Error saving default GenAI selection: " +:+ exn_str e);
         ELoggerError ("Error saving default GenAI selection: " +:+ exn_str e)]
    end
  else [].

(** What the publish at lines 87-124 leaves in the trace after the call. *)
Definition publish_report_trace (w : world) (user_id : string) (v : view)
  : list effect :=
  match views_publish w user_id v with
  | Ok _ =>
      [EPrint ("✅ Successfully published home view for user: " +:+ user_id)]
  | Raise e =>
      [EPrintErr ("❌ Error publishing home view: " +:+ exn_str e);
       ELoggerError (exn_str e)]
  end.

(** The four ways through the selection policy. *)
Inductive choose_path (w : world) (user_id : string)
    (redis_url : option string) (opts : list dropdown_option)
    (provider model : option string)
  : list effect → option (list dropdown_option) → Prop :=
| path_matched p m first rest :
    provider_and_model provider model = Some (p, m) →
    List.filter (fun x => startswith (value x) m) opts = first :: rest →
    choose_path w user_id redis_url opts provider model
      [EPrint ("📋 Retrieved user state from Redis - User: " +:+ user_id
               +:+ ", Provider: " +:+ p +:+ ", Model: " +:+ m)]
      (Some (first :: rest))
| path_stale p m :
    provider_and_model provider model = Some (p, m) →
    List.filter (fun x => startswith (value x) m) opts = [] →
    choose_path w user_id redis_url opts provider model
      [EPrint ("📋 Retrieved user state from Redis - User: " +:+ user_id
               +:+ ", Provider: " +:+ p +:+ ", Model: " +:+ m);
       EPrint ("⚠️ No matching option found for model '" +:+ m
               +:+ "', using default")]
      (Some [])
| path_no_default :
    provider_and_model provider model = None →
    truthy (environ w !! "GENAI_API_URL") && existsb is_genai_agent opts
    = false →
    choose_path w user_id redis_url opts provider model
      [EPrint ("ℹ️ No provider selection found for user: " +:+ user_id)]
      None
| path_default first rest :
    provider_and_model provider model = None →
    truthy (environ w !! "GENAI_API_URL") = true →
    existsb is_genai_agent opts = true →
    List.filter is_genai_agent opts = first :: rest →
    choose_path w user_id redis_url opts provider model
      (EPrint ("ℹ️ No provider selection found for user: " +:+ user_id)
       :: EPrint ("🔄 Using genai-agent as default model for user: "
                  +:+ user_id)
       :: save_default_trace w user_id redis_url)
      (Some (first :: rest)).

(** No saved provider/model pair reaches the selection policy: the store
    is not consulted, or its read raises, or what it returns fails the test
    [provider and model]. *)
Definition no_saved_pair (w : world) (user_id : string) : Prop :=
  let redis_url := environ w !! "REDIS_URL" in
  truthy redis_url = false ∨
  (∃ e, get_redis_user_state w user_id true redis_url = Raise e) ∨
  (∃ provider model,
      get_redis_user_state w user_id true redis_url = Ok (provider, model) ∧
      truthy provider && truthy model = false).

(** ** Sample invocations *)

Module Sample.

Definition registry : list (string * model_info) :=
  [ ("gpt-4o", {| name := "GPT-4o"; provider := "OpenAI" |});
    ("genai-agent", {| name := "GenAI Agent"; provider := "GenAI" |}) ].

Definition home_event : gmap string string :=
  <["tab" := "home"]> (<["user" := "U1"]> ∅).

Definition messages_event : gmap string string :=
  <["tab" := "messages"]> ∅.

Definition both_urls : gmap string string :=
  <["REDIS_URL" := "redis://cache"]> (<["GENAI_API_URL" := "https://agent"]> ∅).

Definition genai_only : gmap string string :=
  <["GENAI_API_URL" := "https://agent"]> ∅.

(** A store that remembers a model the registry still offers. *)
Definition remembers_gpt : world :=
  {| get_available_providers := Ok registry;
     environ := both_urls;
     get_redis_user_state := fun _ _ _ => Ok (Some "openai", Some "gpt-4o");
     set_redis_user_state := fun _ _ _ _ => Ok tt;
     views_publish := fun _ _ => Ok tt;
     str_lower := ascii_lower |}.

(** A store that remembers a model the registry no longer offers. *)
Definition remembers_stale : world :=
  {| get_available_providers := Ok registry;
     environ := both_urls;
     get_redis_user_state := fun _ _ _ => Ok (Some "openai", Some "gpt-3");
     set_redis_user_state := fun _ _ _ _ => Ok tt;
     views_publish := fun _ _ => Ok tt;
     str_lower := ascii_lower |}.

(** A store with nothing saved for the user. *)
Definition nothing_saved : world :=
  {| get_available_providers := Ok registry;
     environ := both_urls;
     get_redis_user_state := fun _ _ _ => Ok (None, None);
     set_redis_user_state := fun _ _ _ _ => Ok tt;
     views_publish := fun _ _ => Ok tt;
     str_lower := ascii_lower |}.

(** Every collaborator but the registry fails. *)
Definition all_down : world :=
  {| get_available_providers := Ok registry;
     environ := both_urls;
     get_redis_user_state := fun _ _ _ => Raise (OtherException "timeout");
     set_redis_user_state := fun _ _ _ _ => Raise (OtherException "read only");
     views_publish := fun _ _ => Raise (OtherException "ratelimited");
     str_lower := ascii_lower |}.

(** No Redis configured. *)
Definition no_redis : world :=
  {| get_available_providers := Ok registry;
     environ := genai_only;
     get_redis_user_state := fun _ _ _ => Ok (Some "openai", Some "gpt-4o");
     set_redis_user_state := fun _ _ _ _ => Ok tt;
     views_publish := fun _ _ => Ok tt;
     str_lower := ascii_lower |}.

(** [GENAI_API_URL] is present in the environment, with the empty string
    as its value; no Redis. *)
Definition genai_url_empty : world :=
  {| get_available_providers := Ok registry;
     environ := <["GENAI_API_URL" := ""]> ∅;
     get_redis_user_state := fun _ _ _ => Ok (None, None);
     set_redis_user_state := fun _ _ _ _ => Ok tt;
     views_publish := fun _ _ => Ok tt;
     str_lower := ascii_lower |}.

Definition gpt_option : dropdown_option :=
  {| option_text := plain_text "GPT-4o (OpenAI)"; value := "gpt-4o openai" |}.

Definition genai_option : dropdown_option :=
  {| option_text := plain_text "GenAI Agent (GenAI)";
     value := "genai-agent genai" |}.

End Sample.

(** ** The selection policy as a pure function *)

(** The entry appended at lines 69-85 when nothing has been selected, from
    the value of [GENAI_API_URL] and the registry options. *)
Definition placeholder (genai_api_url : option string)
    (opts : list dropdown_option) : dropdown_option :=
  if truthy genai_api_url && existsb is_genai_agent opts
  then select_a_provider_genai
  else select_a_provider.

(** The registry option that lines 46-58 pre-select, if any.  With a saved
    pair: the first option whose value starts with the saved model, and
    none when no option matches.  Without a saved pair: the first
    genai-agent option when [GENAI_API_URL] is truthy. *)
Definition preselected (genai_api_url : option string)
    (saved : option (string * string)) (opts : list dropdown_option)
  : option dropdown_option :=
  match saved with
  | Some (_, m) => head (List.filter (fun x => startswith (value x) m) opts)
  | None =>
      if truthy genai_api_url
      then head (List.filter is_genai_agent opts)
      else None
  end.

(** The static_select of lines 110-115, as a function of the value of
    [GENAI_API_URL], the saved pair and the registry options. *)
Definition expected_select (genai_api_url : option string)
    (saved : option (string * string)) (opts : list dropdown_option)
  : static_select :=
  match preselected genai_api_url saved opts with
  | Some o =>
      {| initial_option := o; options := opts;
         action_id := "pick_a_provider" |}
  | None =>
      {| initial_option := placeholder genai_api_url opts;
         options := opts ++ [placeholder genai_api_url opts];
         action_id := "pick_a_provider" |}
  end.

(** The oracle update used to vary the answers of the write and of the
    publish. *)
Definition with_write_and_publish
    (write : string -> string -> string -> option string -> result unit)
    (publish : string -> view -> result unit) (w : world) : world :=
  {| get_available_providers := get_available_providers w;
     environ := environ w;
     get_redis_user_state := get_redis_user_state w;
     set_redis_user_state := write;
     views_publish := publish;
     str_lower := str_lower w |}.

(** ** Further observers *)



(** The user a call to the store or to Slack is made for. *)
Definition call_user (ev : effect) : option string :=
  match ev with
  | EGetRedisUserState u _ _ => Some u
  | ESetRedisUserState u _ _ _ => Some u
  | EViewsPublish u _ => Some u
  | _ => None
  end.

(** [" " in s] *)
Fixpoint contains_space (s : string) : bool :=
  match s with
  | EmptyString => false
  | String c s' => if Ascii.eqb c " " then true else contains_space s'
  end.

(** The keys and the values of the dropdown, as lists. *)
Definition registry_keys (providers : list (string * model_info))
  : list string := map fst providers.

Definition option_values (opts : list dropdown_option) : list string :=
  map value opts.

(** The greeting of line 21. *)
Definition greeting (user_id : string) : effect :=
  EPrint ("🏠 App Home opened by user: " +:+ user_id).

(** ** Further sample invocations *)

Module Scenario.

(** An event that names no user. *)
Definition anonymous_home : gmap string string := <["tab" := "home"]> ∅.

(** The registry itself fails. *)
Definition registry_down : world :=
  {| get_available_providers := Raise (OtherException "no providers");
     environ := Sample.both_urls;
     get_redis_user_state := fun _ _ _ => Ok (Some "openai", Some "gpt-4o");
     set_redis_user_state := fun _ _ _ _ => Ok tt;
     views_publish := fun _ _ => Ok tt;
     str_lower := ascii_lower |}.

(** The store holds a model but no provider. *)
Definition model_without_provider : world :=
  {| get_available_providers := Ok Sample.registry;
     environ := Sample.both_urls;
     get_redis_user_state := fun _ _ _ => Ok (None, Some "gpt-4o");
     set_redis_user_state := fun _ _ _ _ => Ok tt;
     views_publish := fun _ _ => Ok tt;
     str_lower := ascii_lower |}.

(** The store after the default of line 62 has been saved. *)
Definition default_saved : world :=
  {| get_available_providers := Ok Sample.registry;
     environ := Sample.both_urls;
     get_redis_user_state := fun _ _ _ => Ok (Some "genai", Some "genai-agent");
     set_redis_user_state := fun _ _ _ _ => Ok tt;
     views_publish := fun _ _ => Ok tt;
     str_lower := ascii_lower |}.

(** A registry with no provider at all. *)
Definition empty_registry : world :=
  {| get_available_providers := Ok [];
     environ := Sample.both_urls;
     get_redis_user_state := fun _ _ _ => Ok (Some "openai", Some "gpt-4o");
     set_redis_user_state := fun _ _ _ _ => Ok tt;
     views_publish := fun _ _ => Ok tt;
     str_lower := ascii_lower |}.

(** Redis configured, GenAI not. *)
Definition redis_only : world :=
  {| get_available_providers := Ok Sample.registry;
     environ := <["REDIS_URL" := "redis://cache"]> ∅;
     get_redis_user_state := fun _ _ _ => Ok (None, None);
     set_redis_user_state := fun _ _ _ _ => Ok tt;
     views_publish := fun _ _ => Ok tt;
     str_lower := ascii_lower |}.


End Scenario.

(** ** Basic facts *)

Example lower_OpenAI : ascii_lower "OpenAI" = "openai".
Proof. reflexivity. Qed.

Example sample_options :
  build_options ascii_lower Sample.registry = [Sample.gpt_option; Sample.genai_option].
Proof. reflexivity. Qed.

Example startswith_empty : startswith "gpt-4o openai" "" = true.
Proof. reflexivity. Qed.

Lemma truthy_Some (s : string) : s ≠ "" → truthy (Some s) = true.
Proof. destruct s; [congruence | reflexivity]. Qed.

Lemma truthy_false (v : option string) :
  truthy v = false ↔ v = None ∨ v = Some "".
Proof.
  destruct v as [[|c s]|]; simpl; split; intros H; auto;
    try discriminate; destruct H; discriminate.
Qed.

Lemma provider_and_model_Some (p m : string) :
  p ≠ "" → m ≠ "" → provider_and_model (Some p) (Some m) = Some (p, m).
Proof.
  intros Hp Hm. unfold provider_and_model.
  rewrite (truthy_Some p Hp), (truthy_Some m Hm). reflexivity.
Qed.

Lemma provider_and_model_None (provider model : option string) :
  provider_and_model provider model = None ↔
  truthy provider && truthy model = false.
Proof.
  unfold provider_and_model.
  destruct provider as [[|c1 s1]|], model as [[|c2 s2]|]; simpl;
    split; intros H; try reflexivity; discriminate.
Qed.

(** [any(p(x) for x in l)] holds exactly when [filter(p, l)] is non-empty. *)
Lemma existsb_filter {A : Type} (p : A → bool) (l : list A) :
  existsb p l = true → ∃ x rest, List.filter p l = x :: rest.
Proof.
  induction l as [|a l IH]; simpl; [discriminate |].
  destruct (p a) eqn:Hpa; simpl; [eauto | exact IH].
Qed.

Lemma existsb_elem_of {A : Type} (p : A → bool) (l : list A) (x : A) :
  x ∈ l → p x = true → existsb p l = true.
Proof.
  intros Hin Hp. apply existsb_exists. exists x.
  split; [by apply list_elem_of_In | exact Hp].
Qed.

Lemma filter_head_elem_of {A : Type} (p : A → bool) (l : list A) (x : A)
    (rest : list A) :
  List.filter p l = x :: rest → x ∈ l ∧ p x = true.
Proof.
  intros H.
  assert (Hin : In x (List.filter p l)) by (rewrite H; left; reflexivity).
  apply filter_In in Hin. destruct Hin as [Hin Hp].
  split; [by apply list_elem_of_In | exact Hp].
Qed.

(** ** The stages of the handler, path by path *)

Section Stages.

Variables (w : world) (user_id : string).

Local Arguments String.append : simpl never.

(** *** Lines 37-44 *)

Lemma retrieve_not_consulted (redis_url : option string) :
  truthy redis_url = false →
  retrieve_user_state w user_id redis_url = ([], Ok (None, None)).
Proof. intros H. unfold retrieve_user_state. rewrite H. reflexivity. Qed.

Lemma retrieve_returned (redis_url : option string)
    (state : option string * option string) :
  truthy redis_url = true →
  get_redis_user_state w user_id true redis_url = Ok state →
  retrieve_user_state w user_id redis_url
  = ([EGetRedisUserState user_id true redis_url], Ok state).
Proof.
  intros H Hget. unfold retrieve_user_state. rewrite H, Hget. reflexivity.
Qed.

Lemma retrieve_raised (redis_url : option string) (e : exn) :
  truthy redis_url = true →
  get_redis_user_state w user_id true redis_url = Raise e →
  retrieve_user_state w user_id redis_url
  = ([EGetRedisUserState user_id true redis_url;
      EPrint ("⚠️ Failed to get user state from Redis: " +:+ exn_str e)],
     Ok (None, None)).
Proof.
  intros H Hget. unfold retrieve_user_state. rewrite H, Hget. reflexivity.
Qed.

(** *** Lines 46-66 *)

Variable opts : list dropdown_option.

Lemma choose_matched (redis_url provider model : option string)
    (p m : string) (first : dropdown_option) (rest : list dropdown_option) :
  provider_and_model provider model = Some (p, m) →
  List.filter (fun x => startswith (value x) m) opts = first :: rest →
  choose_initial_option w user_id redis_url opts provider model
  = ([EPrint ("📋 Retrieved user state from Redis - User: " +:+ user_id
              +:+ ", Provider: " +:+ p +:+ ", Model: " +:+ m)],
     Ok (Some (first :: rest))).
Proof.
  intros Hpm Hf. unfold choose_initial_option. rewrite Hpm, Hf. reflexivity.
Qed.

Lemma choose_stale (redis_url provider model : option string) (p m : string) :
  provider_and_model provider model = Some (p, m) →
  List.filter (fun x => startswith (value x) m) opts = [] →
  choose_initial_option w user_id redis_url opts provider model
  = ([EPrint ("📋 Retrieved user state from Redis - User: " +:+ user_id
              +:+ ", Provider: " +:+ p +:+ ", Model: " +:+ m);
      EPrint ("⚠️ No matching option found for model '" +:+ m
              +:+ "', using default")],
     Ok (Some [])).
Proof.
  intros Hpm Hf. unfold choose_initial_option. rewrite Hpm, Hf. reflexivity.
Qed.

Lemma choose_no_default (redis_url provider model : option string) :
  provider_and_model provider model = None →
  truthy (environ w !! "GENAI_API_URL") && existsb is_genai_agent opts = false →
  choose_initial_option w user_id redis_url opts provider model
  = ([EPrint ("ℹ️ No provider selection found for user: " +:+ user_id)],
     Ok None).
Proof.
  intros Hpm Hc. unfold choose_initial_option. rewrite Hpm, Hc. reflexivity.
Qed.

Lemma choose_default (redis_url provider model : option string) :
  provider_and_model provider model = None →
  truthy (environ w !! "GENAI_API_URL") = true →
  existsb is_genai_agent opts = true →
  ∃ first rest,
    List.filter is_genai_agent opts = first :: rest ∧
    choose_initial_option w user_id redis_url opts provider model
    = (EPrint ("ℹ️ No provider selection found for user: " +:+ user_id)
       :: EPrint ("🔄 Using genai-agent as default model for user: " +:+ user_id)
       :: save_default_trace w user_id redis_url,
       Ok (Some (first :: rest))).
Proof.
  intros Hpm Hg Hex.
  destruct (existsb_filter _ _ Hex) as (first & rest & Hf).
  exists first, rest. split; [exact Hf |].
  unfold choose_initial_option, save_default_trace.
  rewrite Hpm, Hg, Hex, Hf. simpl.
  destruct (truthy redis_url); [| reflexivity].
  destruct (set_redis_user_state w user_id "genai" "genai-agent" redis_url)
    as [[]|e]; reflexivity.
Qed.

(** *** Lines 69-124 *)

Lemma with_placeholder_chosen (initial : option (list dropdown_option)) :
  truthy_list initial = true → with_placeholder w opts initial = opts.
Proof. intros H. unfold with_placeholder. rewrite H. reflexivity. Qed.

Lemma with_placeholder_none (initial : option (list dropdown_option)) :
  truthy_list initial = false →
  with_placeholder w opts initial
  = opts ++ [if truthy (environ w !! "GENAI_API_URL")
                && existsb is_genai_agent opts
             then select_a_provider_genai else select_a_provider].
Proof.
  intros H. unfold with_placeholder. rewrite H. simpl.
  destruct (truthy (environ w !! "GENAI_API_URL") && existsb is_genai_agent opts);
    reflexivity.
Qed.

Lemma publish_home_run (initial_option : option (list dropdown_option))
    (all : list dropdown_option) (o : dropdown_option) :
  initial_or_last initial_option all = ([], Ok o) →
  publish_home w user_id initial_option all
  = (EViewsPublish user_id (home_view o all)
     :: publish_report_trace w user_id (home_view o all),
     Ok tt).
Proof.
  intros Hi. unfold publish_home, publish_report_trace. rewrite Hi. simpl.
  destruct (views_publish w user_id (home_view o all)) as [[]|e]; reflexivity.
Qed.

(** The subscript [options[-1]] is only evaluated after the placeholder has
    been appended, so it cannot raise. *)
Lemma initial_or_last_chosen (first : dropdown_option)
    (rest all : list dropdown_option) :
  initial_or_last (Some (first :: rest)) all = ([], Ok first).
Proof. reflexivity. Qed.

Lemma initial_or_last_placeholder (initial : option (list dropdown_option))
    (l : list dropdown_option) (x : dropdown_option) :
  truthy_list initial = false →
  initial_or_last initial (l ++ [x]) = ([], Ok x).
Proof.
  intros H. unfold initial_or_last, getitem_last.
  destruct initial as [[|a l']|]; try discriminate; rewrite last_snoc;
    reflexivity.
Qed.

End Stages.

(** ** What each stage leaves in the trace *)

Section TraceFacts.

Variables (w : world) (user_id : string).

Local Arguments String.append : simpl never.

Lemma published_selects_app (t1 t2 : list effect) :
  published_selects (t1 ++ t2) = published_selects t1 ++ published_selects t2.
Proof. apply flat_map_app. Qed.

Lemma published_selects_home (o : dropdown_option)
    (all : list dropdown_option) (t : list effect) :
  published_selects (EViewsPublish user_id (home_view o all) :: t)
  = {| initial_option := o; options := all; action_id := "pick_a_provider" |}
    :: published_selects t.
Proof. reflexivity. Qed.

(** The two reports are decided by what the collaborator answered. *)
Ltac by_write_outcome w user_id redis_url :=
  unfold save_default_trace; destruct (truthy redis_url); [| reflexivity];
  destruct (set_redis_user_state w user_id "genai" "genai-agent" redis_url);
  reflexivity.

Ltac by_publish_outcome w user_id v :=
  unfold publish_report_trace; destruct (views_publish w user_id v);
  reflexivity.

Lemma save_default_no_select (redis_url : option string) :
  published_selects (save_default_trace w user_id redis_url) = [].
Proof. by_write_outcome w user_id redis_url. Qed.

Lemma save_default_no_publish (redis_url : option string) :
  List.filter is_publish (save_default_trace w user_id redis_url) = [].
Proof. by_write_outcome w user_id redis_url. Qed.

Lemma save_default_no_read (redis_url : option string) :
  List.filter is_store_read (save_default_trace w user_id redis_url) = [].
Proof. by_write_outcome w user_id redis_url. Qed.

Lemma save_default_no_registry (redis_url : option string) :
  List.filter is_registry_read (save_default_trace w user_id redis_url) = [].
Proof. by_write_outcome w user_id redis_url. Qed.

Lemma save_default_writes (redis_url : option string) :
  List.filter is_store_write (save_default_trace w user_id redis_url)
  = if truthy redis_url
    then [ESetRedisUserState user_id "genai" "genai-agent" redis_url]
    else [].
Proof. by_write_outcome w user_id redis_url. Qed.

Lemma publish_report_no_select (v : view) :
  published_selects (publish_report_trace w user_id v) = [].
Proof. by_publish_outcome w user_id v. Qed.

Lemma publish_report_no_publish (v : view) :
  List.filter is_publish (publish_report_trace w user_id v) = [].
Proof. by_publish_outcome w user_id v. Qed.

Lemma publish_report_no_read (v : view) :
  List.filter is_store_read (publish_report_trace w user_id v) = [].
Proof. by_publish_outcome w user_id v. Qed.

Lemma publish_report_no_write (v : view) :
  List.filter is_store_write (publish_report_trace w user_id v) = [].
Proof. by_publish_outcome w user_id v. Qed.

Lemma publish_report_no_registry (v : view) :
  List.filter is_registry_read (publish_report_trace w user_id v) = [].
Proof. by_publish_outcome w user_id v. Qed.

(** The read stage: at most one read, nothing else of interest. *)
Lemma retrieve_trace (redis_url : option string) (t : list effect)
    (state : option string * option string) :
  retrieve_user_state w user_id redis_url = (t, Ok state) →
  published_selects t = [] ∧
  List.filter is_publish t = [] ∧
  List.filter is_store_write t = [] ∧
  List.filter is_store_read t
  = (if truthy redis_url
     then [EGetRedisUserState user_id true redis_url] else []).
Proof.
  unfold retrieve_user_state. destruct (truthy redis_url).
  - destruct (get_redis_user_state w user_id true redis_url);
      intros [= <- <-]; repeat split; reflexivity.
  - intros [= <- <-]. repeat split; reflexivity.
Qed.

(** The read stage never raises. *)
Lemma retrieve_ok (redis_url : option string) :
  ∃ t state, retrieve_user_state w user_id redis_url = (t, Ok state).
Proof.
  unfold retrieve_user_state. destruct (truthy redis_url); [| by eauto].
  destruct (get_redis_user_state w user_id true redis_url); by eauto.
Qed.

Lemma choose_paths (redis_url : option string) (opts : list dropdown_option)
    (provider model : option string) :
  ∃ t chosen,
    choose_initial_option w user_id redis_url opts provider model
    = (t, Ok chosen) ∧
    choose_path w user_id redis_url opts provider model t chosen.
Proof.
  destruct (provider_and_model provider model) as [[p m]|] eqn:Hpm.
  - destruct (List.filter (fun x => startswith (value x) m) opts)
      as [|first rest] eqn:Hf.
    + eexists _, _. split; [by apply (choose_stale _ _ _ _ _ _ p m) |].
      by apply path_stale.
    + eexists _, _. split; [by apply (choose_matched _ _ _ _ _ _ p m) |].
      by eapply path_matched.
  - destruct (truthy (environ w !! "GENAI_API_URL")) eqn:Hg;
      [destruct (existsb is_genai_agent opts) eqn:Hex |].
    + destruct (choose_default w user_id opts redis_url provider model
                  Hpm Hg Hex) as (first & rest & Hf & Hrun).
      eexists _, _. split; [exact Hrun |]. by apply path_default.
    + eexists _, _. split; [apply choose_no_default; [done|] |].
      * by rewrite Hg, Hex.
      * apply path_no_default; [done|]. by rewrite Hg, Hex.
    + eexists _, _. split; [apply choose_no_default; [done|] |].
      * by rewrite Hg.
      * apply path_no_default; [done|]. by rewrite Hg.
Qed.

(** The selection stage publishes nothing and reads nothing. *)
Lemma choose_path_quiet (redis_url : option string)
    (opts : list dropdown_option) (provider model : option string)
    (t : list effect) (chosen : option (list dropdown_option)) :
  choose_path w user_id redis_url opts provider model t chosen →
  published_selects t = [] ∧
  List.filter is_publish t = [] ∧
  List.filter is_store_read t = [].
Proof.
  intros [p m first rest _ _ | p m _ _ | _ _ | first rest _ _ _ _];
    repeat split; try reflexivity.
  - apply save_default_no_select.
  - simpl. apply save_default_no_publish.
  - simpl. apply save_default_no_read.
Qed.

(** The selection stage writes to the store on one path only. *)
Lemma choose_path_writes (redis_url : option string)
    (opts : list dropdown_option) (provider model : option string)
    (t : list effect) (chosen : option (list dropdown_option)) :
  choose_path w user_id redis_url opts provider model t chosen →
  List.filter is_store_write t
  = match provider_and_model provider model with
    | Some _ => []
    | None =>
        if truthy (environ w !! "GENAI_API_URL")
           && existsb is_genai_agent opts && truthy redis_url
        then [ESetRedisUserState user_id "genai" "genai-agent" redis_url]
        else []
    end.
Proof.
  intros [p m first rest Hpm _ | p m Hpm _ | Hpm Hc | first rest Hpm Hg Hex _];
    rewrite Hpm.
  - reflexivity.
  - reflexivity.
  - rewrite Hc. reflexivity.
  - rewrite Hg, Hex. simpl. apply save_default_writes.
Qed.

(** Only the first call of the handler reaches the registry. *)
Lemma retrieve_no_registry (redis_url : option string) (t : list effect)
    (state : option string * option string) :
  retrieve_user_state w user_id redis_url = (t, Ok state) →
  List.filter is_registry_read t = [].
Proof.
  unfold retrieve_user_state. destruct (truthy redis_url).
  - destruct (get_redis_user_state w user_id true redis_url);
      intros [= <- <-]; reflexivity.
  - intros [= <- <-]. reflexivity.
Qed.

Lemma choose_path_no_registry (redis_url : option string)
    (opts : list dropdown_option) (provider model : option string)
    (t : list effect) (chosen : option (list dropdown_option)) :
  choose_path w user_id redis_url opts provider model t chosen →
  List.filter is_registry_read t = [].
Proof.
  intros [p m first rest _ _ | p m _ _ | _ _ | first rest _ _ _ _];
    try reflexivity.
  simpl. apply save_default_no_registry.
Qed.

(** Whatever the path, the dropdown handed to Slack has a well-defined
    initial option: [options[-1]] is never taken on an empty list. *)
Lemma initial_or_last_total (opts : list dropdown_option)
    (chosen : option (list dropdown_option)) :
  ∃ o, initial_or_last chosen (with_placeholder w opts chosen) = ([], Ok o).
Proof.
  destruct (truthy_list chosen) eqn:Hc.
  - destruct chosen as [[|first rest]|]; try discriminate.
    exists first. reflexivity.
  - rewrite (with_placeholder_none _ _ _ Hc).
    eexists. by apply initial_or_last_placeholder.
Qed.

End TraceFacts.

(** ** The whole run on the home tab *)

Section HomeRun.

Variables (w : world) (event : gmap string string) (user_id : string)
          (providers : list (string * model_info)).

Hypothesis Htab : event !! "tab" = Some "home".
Hypothesis Huser : event !! "user" = Some user_id.
Hypothesis Hregistry : get_available_providers w = Ok providers.

Local Arguments String.append : simpl never.

(** Once the three subscripts and the registry call have succeeded, the run
    is the concatenation of its three stages. *)
Lemma callback_home_run (t1 t2 : list effect)
    (state : option string * option string)
    (chosen : option (list dropdown_option)) (o : dropdown_option) :
  let redis_url := environ w !! "REDIS_URL" in
  let opts := build_options (str_lower w) providers in
  retrieve_user_state w user_id redis_url = (t1, Ok state) →
  choose_initial_option w user_id redis_url opts (fst state) (snd state)
  = (t2, Ok chosen) →
  initial_or_last chosen (with_placeholder w opts chosen) = ([], Ok o) →
  app_home_opened_callback w event
  = (EPrint ("🏠 App Home opened by user: " +:+ user_id)
     :: EGetAvailableProviders
     :: t1 ++ t2
     ++ EViewsPublish user_id (home_view o (with_placeholder w opts chosen))
     :: publish_report_trace w user_id
          (home_view o (with_placeholder w opts chosen)),
     Ok tt).
Proof.
  intros redis_url opts Hr Hc Hi.
  unfold app_home_opened_callback, getitem.
  rewrite Htab. unfold bind at 1. unfold ret at 1.
  change (String.eqb "home" "home") with true. cbn [negb].
  rewrite Huser. unfold bind at 1. unfold ret at 1.
  unfold print at 1. unfold bind at 1.
  rewrite Hregistry. unfold call at 1. unfold bind at 1.
  fold redis_url. fold opts. rewrite Hr. unfold bind at 1.
  rewrite Hc. unfold bind at 1.
  rewrite (publish_home_run w user_id chosen _ o Hi).
  reflexivity.
Qed.

End HomeRun.

(** ** Every way through the handler *)

Section Paths.

Variables (w : world) (event : gmap string string).

Local Arguments String.append : simpl never.

Lemma callback_not_home (tab : string) :
  event !! "tab" = Some tab → tab ≠ "home" →
  app_home_opened_callback w event = ([], Ok tt).
Proof.
  intros Htab Hne. unfold app_home_opened_callback, getitem.
  rewrite Htab. unfold bind at 1. unfold ret at 1.
  destruct (String.eqb tab "home") eqn:Heq.
  - apply String.eqb_eq in Heq. contradiction.
  - reflexivity.
Qed.

Lemma callback_no_tab :
  event !! "tab" = None →
  app_home_opened_callback w event = ([], Raise (KeyError "tab")).
Proof.
  intros Htab. unfold app_home_opened_callback, getitem.
  rewrite Htab. reflexivity.
Qed.

Lemma callback_no_user :
  event !! "tab" = Some "home" → event !! "user" = None →
  app_home_opened_callback w event = ([], Raise (KeyError "user")).
Proof.
  intros Htab Huser. unfold app_home_opened_callback, getitem.
  rewrite Htab. unfold bind at 1. unfold ret at 1.
  change (String.eqb "home" "home") with true. cbn [negb].
  rewrite Huser. reflexivity.
Qed.

(** A failing registry is not guarded by any [try]: its exception leaves the
    handler. *)
Lemma callback_registry_raises (user_id : string) (e : exn) :
  event !! "tab" = Some "home" → event !! "user" = Some user_id →
  get_available_providers w = Raise e →
  app_home_opened_callback w event
  = ([EPrint ("🏠 App Home opened by user: " +:+ user_id);
      EGetAvailableProviders], Raise e).
Proof.
  intros Htab Huser Hreg. unfold app_home_opened_callback, getitem.
  rewrite Htab. unfold bind at 1. unfold ret at 1.
  change (String.eqb "home" "home") with true. cbn [negb].
  rewrite Huser. unfold bind at 1. unfold ret at 1.
  unfold print at 1. unfold bind at 1.
  rewrite Hreg. reflexivity.
Qed.

(** On the home tab, with a user and a registry, the run is one read stage,
    one of the four selection paths, and one publish. *)
Lemma callback_home_paths (user_id : string)
    (providers : list (string * model_info)) :
  event !! "tab" = Some "home" → event !! "user" = Some user_id →
  get_available_providers w = Ok providers →
  let redis_url := environ w !! "REDIS_URL" in
  let opts := build_options (str_lower w) providers in
  ∃ t1 state t2 chosen o,
    retrieve_user_state w user_id redis_url = (t1, Ok state) ∧
    choose_path w user_id redis_url opts (fst state) (snd state) t2 chosen ∧
    initial_or_last chosen (with_placeholder w opts chosen) = ([], Ok o) ∧
    app_home_opened_callback w event
    = (EPrint ("🏠 App Home opened by user: " +:+ user_id)
       :: EGetAvailableProviders
       :: t1 ++ t2
       ++ EViewsPublish user_id (home_view o (with_placeholder w opts chosen))
       :: publish_report_trace w user_id
            (home_view o (with_placeholder w opts chosen)),
       Ok tt).
Proof.
  intros Htab Huser Hreg redis_url opts.
  destruct (retrieve_ok w user_id redis_url) as (t1 & state & Hr).
  destruct (choose_paths w user_id redis_url opts (fst state) (snd state))
    as (t2 & chosen & Hc & Hpath).
  destruct (initial_or_last_total w opts chosen) as (o & Hi).
  exists t1, state, t2, chosen, o.
  repeat split; try assumption.
  by apply (callback_home_run w event user_id providers Htab Huser Hreg
              t1 t2 state chosen o).
Qed.

(** The same run, read through the trace observers. *)
Lemma callback_home_summary (user_id : string)
    (providers : list (string * model_info)) :
  event !! "tab" = Some "home" → event !! "user" = Some user_id →
  get_available_providers w = Ok providers →
  let redis_url := environ w !! "REDIS_URL" in
  let opts := build_options (str_lower w) providers in
  let run := app_home_opened_callback w event in
  ∃ t1 state t2 chosen o,
    retrieve_user_state w user_id redis_url = (t1, Ok state) ∧
    choose_path w user_id redis_url opts (fst state) (snd state) t2 chosen ∧
    initial_or_last chosen (with_placeholder w opts chosen) = ([], Ok o) ∧
    outcome run = Ok tt ∧
    published_selects (trace run)
    = [ {| initial_option := o;
           options := with_placeholder w opts chosen;
           action_id := "pick_a_provider" |} ] ∧
    List.filter is_publish (trace run)
    = [EViewsPublish user_id
         (home_view o (with_placeholder w opts chosen))] ∧
    List.filter is_store_read (trace run)
    = (if truthy redis_url
       then [EGetRedisUserState user_id true redis_url] else []) ∧
    List.filter is_store_write (trace run) = List.filter is_store_write t2 ∧
    List.filter is_registry_read (trace run) = [EGetAvailableProviders] ∧
    trace run
    = EPrint ("🏠 App Home opened by user: " +:+ user_id)
      :: EGetAvailableProviders
      :: t1 ++ t2
      ++ EViewsPublish user_id (home_view o (with_placeholder w opts chosen))
      :: publish_report_trace w user_id
           (home_view o (with_placeholder w opts chosen)).
Proof.
  intros Htab Huser Hreg redis_url opts run.
  destruct (callback_home_paths user_id providers Htab Huser Hreg)
    as (t1 & state & t2 & chosen & o & Hr & Hpath & Hi & Hrun).
  fold redis_url opts in Hr, Hpath, Hi, Hrun.
  exists t1, state, t2, chosen, o.
  destruct (retrieve_trace w user_id redis_url t1 state Hr)
    as (Hs1 & Hp1 & Hw1 & Hr1).
  destruct (choose_path_quiet w user_id redis_url opts _ _ t2 chosen Hpath)
    as (Hs2 & Hp2 & Hr2).
  split; [exact Hr |]. split; [exact Hpath |]. split; [exact Hi |].
  unfold run. rewrite Hrun. unfold trace, outcome. cbn [fst snd].
  split; [reflexivity |].
  split.
  { change (published_selects
              (t1 ++ t2 ++ EViewsPublish user_id
                 (home_view o (with_placeholder w opts chosen))
               :: publish_report_trace w user_id
                    (home_view o (with_placeholder w opts chosen)))
            = [ {| initial_option := o;
                   options := with_placeholder w opts chosen;
                   action_id := "pick_a_provider" |} ]).
    rewrite !published_selects_app, Hs1, Hs2, published_selects_home.
    rewrite publish_report_no_select. reflexivity. }
  cbn [List.filter is_publish is_store_read is_store_write is_registry_read].
  rewrite !List.filter_app.
  cbn [List.filter is_publish is_store_read is_store_write is_registry_read].
  rewrite Hp1, Hp2, Hr1, Hr2, Hw1.
  rewrite (retrieve_no_registry w user_id redis_url t1 state Hr).
  rewrite (choose_path_no_registry w user_id redis_url opts _ _ t2 chosen Hpath).
  rewrite publish_report_no_publish, publish_report_no_read,
    publish_report_no_write, publish_report_no_registry.
  rewrite !app_nil_r. cbn [app].
  repeat split.
Qed.

End Paths.

(** ** Properties of the handler *)

(** C10: an event whose [tab] is not ["home"] makes the callback return at
    once: the trace is empty, so the registry is not read, the store is
    neither read nor written and no view is published, and the callback
    returns normally. *)
Theorem other_tab_no_effect (w : world) (event : gmap string string)
    (tab : string) :
  event !! "tab" = Some tab → tab ≠ "home" →
  app_home_opened_callback w event = ([], Ok tt) ∧
  List.filter is_registry_read (trace (app_home_opened_callback w event)) = [] ∧
  List.filter is_store_read (trace (app_home_opened_callback w event)) = [] ∧
  List.filter is_store_write (trace (app_home_opened_callback w event)) = [] ∧
  List.filter is_publish (trace (app_home_opened_callback w event)) = [].
Proof.
  intros Htab Hne. rewrite (callback_not_home w event tab Htab Hne).
  repeat split.
Qed.

Lemma other_tab_no_effect_witness :
  let run := app_home_opened_callback Sample.all_down Sample.messages_event in
  run = ([], Ok tt) ∧
  List.filter is_registry_read (trace run) = [] ∧
  List.filter is_store_read (trace run) = [] ∧
  List.filter is_store_write (trace run) = [] ∧
  List.filter is_publish (trace run) = [].
Proof.
  apply (other_tab_no_effect Sample.all_down Sample.messages_event "messages").
  - reflexivity.
  - discriminate.
Defined.

(** *** What the read stage hands to the selection policy *)

Lemma saved_selection_state (w : world) (user_id : string) (t : list effect)
    (state : option string * option string) :
  retrieve_user_state w user_id (environ w !! "REDIS_URL") = (t, Ok state) →
  saved_selection w user_id = provider_and_model (fst state) (snd state).
Proof. intros H. unfold saved_selection, outcome. rewrite H. reflexivity. Qed.

Lemma no_saved_pair_selection (w : world) (user_id : string) :
  no_saved_pair w user_id ↔ saved_selection w user_id = None.
Proof.
  unfold no_saved_pair, saved_selection, retrieve_user_state, outcome.
  destruct (truthy (environ w !! "REDIS_URL")) eqn:Hurl.
  - destruct (get_redis_user_state w user_id true (environ w !! "REDIS_URL"))
      as [[provider model]|e] eqn:Hget; simpl.
    + rewrite provider_and_model_None. split.
      * intros [H | [[e H] | (p' & m' & [= <- <-] & H)]];
          [discriminate | discriminate | exact H].
      * intros H. right. right. eauto.
    + split; [reflexivity |]. intros _. right. left. eauto.
  - simpl. split; [reflexivity | auto].
Qed.

Lemma saved_selection_returned (w : world) (user_id url p m : string) :
  environ w !! "REDIS_URL" = Some url → url ≠ "" →
  get_redis_user_state w user_id true (Some url) = Ok (Some p, Some m) →
  p ≠ "" → m ≠ "" →
  saved_selection w user_id = Some (p, m).
Proof.
  intros Hurl Hne Hget Hp Hm.
  unfold saved_selection. rewrite Hurl.
  rewrite (retrieve_returned w user_id (Some url) _ (truthy_Some url Hne) Hget).
  apply provider_and_model_Some; assumption.
Qed.

(** C9: when [REDIS_URL] is unset or empty the store is never touched:
    the trace holds no call of [get_redis_user_state] and no call of
    [set_redis_user_state], whatever the event, the registry and the other
    variables are; no saved selection is restored. *)
Theorem no_redis_url_store_untouched (w : world)
    (event : gmap string string) :
  environ w !! "REDIS_URL" = None ∨ environ w !! "REDIS_URL" = Some "" →
  List.filter is_store_read (trace (app_home_opened_callback w event)) = [] ∧
  List.filter is_store_write (trace (app_home_opened_callback w event)) = [] ∧
  ∀ user_id, saved_selection w user_id = None.
Proof.
  intros Hurl. apply truthy_false in Hurl.
  assert (Hsaved : ∀ user_id, saved_selection w user_id = None).
  { intros user_id. apply no_saved_pair_selection. left. exact Hurl. }
  destruct (event !! "tab") as [tab|] eqn:Htab;
    [| rewrite (callback_no_tab w event Htab); auto].
  destruct (decide (tab = "home")) as [-> | Hne];
    [| rewrite (callback_not_home w event tab Htab Hne); auto].
  destruct (event !! "user") as [user_id|] eqn:Huser;
    [| rewrite (callback_no_user w event Htab Huser); auto].
  destruct (get_available_providers w) as [providers|e] eqn:Hreg;
    [| rewrite (callback_registry_raises w event user_id e Htab Huser Hreg);
       auto].
  destruct (callback_home_summary w event user_id providers Htab Huser Hreg)
    as (t1 & state & t2 & chosen & o & Hr & Hpath & _ & _ & _ & _ & Hreads
        & Hwrites & _).
  rewrite Hreads, Hwrites, Hurl.
  rewrite (choose_path_writes w user_id _ _ _ _ _ _ Hpath), Hurl.
  rewrite andb_false_r.
  destruct (provider_and_model state.1 state.2); auto.
Qed.

Lemma no_redis_url_store_untouched_witness :
  let run := app_home_opened_callback Sample.no_redis Sample.home_event in
  List.filter is_store_read (trace run) = [] ∧
  List.filter is_store_write (trace run) = [] ∧
  ∀ user_id, saved_selection Sample.no_redis user_id = None.
Proof.
  apply (no_redis_url_store_untouched Sample.no_redis Sample.home_event).
  left. reflexivity.
Defined.

(** C1, as amended: when the store returns a saved provider and model, both
    non-empty, and at least one option's value starts with the saved model,
    the variable [initial_option] is the list of the options whose value
    starts with the saved model, and the first of them is the
    [initial_option] of the one static_select that is published; the
    options are those of the registry, with no placeholder. *)
Theorem saved_model_restored (w : world) (event : gmap string string)
    (user_id url p m : string) (providers : list (string * model_info))
    (first : dropdown_option) (rest : list dropdown_option) :
  event !! "tab" = Some "home" → event !! "user" = Some user_id →
  get_available_providers w = Ok providers →
  environ w !! "REDIS_URL" = Some url → url ≠ "" →
  get_redis_user_state w user_id true (Some url) = Ok (Some p, Some m) →
  p ≠ "" → m ≠ "" →
  List.filter (fun x => startswith (value x) m) (build_options (str_lower w) providers)
  = first :: rest →
  outcome (choose_initial_option w user_id (Some url) (build_options (str_lower w) providers)
             (Some p) (Some m))
  = Ok (Some (List.filter (fun x => startswith (value x) m)
                (build_options (str_lower w) providers))) ∧
  published_selects (trace (app_home_opened_callback w event))
  = [ {| initial_option := first;
         options := build_options (str_lower w) providers;
         action_id := "pick_a_provider" |} ].
Proof.
  intros Htab Huser Hreg Hurl Hne Hget Hp Hm Hf.
  pose proof (provider_and_model_Some p m Hp Hm) as Hpm.
  split.
  { rewrite (choose_matched w user_id _ _ _ _ p m first rest Hpm Hf).
    rewrite Hf. reflexivity. }
  destruct (callback_home_summary w event user_id providers Htab Huser Hreg)
    as (t1 & state & t2 & chosen & o & Hr & Hpath & Hi & _ & Hsel & _).
  rewrite Hsel. clear Hsel.
  rewrite Hurl in Hr.
  rewrite (retrieve_returned w user_id (Some url) _ (truthy_Some url Hne) Hget)
    in Hr.
  injection Hr as <- <-. cbn [fst snd] in Hpath.
  inversion Hpath as [p' m' first' rest' Hpm' Hf' | p' m' Hpm' Hf'
                     | Hpm' _ | first' rest' Hpm' _ _ _]; subst;
    rewrite Hpm in Hpm'; try discriminate; injection Hpm' as <- <-;
    rewrite Hf in Hf'; try discriminate.
  injection Hf' as <- <-.
  rewrite with_placeholder_chosen in Hi |- * by reflexivity.
  rewrite initial_or_last_chosen in Hi. injection Hi as <-.
  reflexivity.
Qed.

Lemma saved_model_restored_witness :
  outcome (choose_initial_option Sample.remembers_gpt "U1"
             (Some "redis://cache") (build_options ascii_lower Sample.registry)
             (Some "openai") (Some "gpt-4o"))
  = Ok (Some [Sample.gpt_option]) ∧
  published_selects
    (trace (app_home_opened_callback Sample.remembers_gpt Sample.home_event))
  = [ {| initial_option := Sample.gpt_option;
         options := [Sample.gpt_option; Sample.genai_option];
         action_id := "pick_a_provider" |} ].
Proof.
  apply (saved_model_restored Sample.remembers_gpt Sample.home_event
           "U1" "redis://cache" "openai" "gpt-4o" Sample.registry
           Sample.gpt_option []);
    first [reflexivity | discriminate].
Defined.

(** C1, as stated, fails on a stale selection: the store returns the
    non-empty pair [("openai", "gpt-3")], no option's value starts with
    ["gpt-3"], and the initial option of the published dropdown is the
    placeholder, whose value ["null"] does not start with the saved model. *)
Lemma saved_model_restored_counterexample :
  let w := Sample.remembers_stale in
  let run := app_home_opened_callback w Sample.home_event in
  environ w !! "REDIS_URL" = Some "redis://cache" ∧
  get_redis_user_state w "U1" true (Some "redis://cache")
  = Ok (Some "openai", Some "gpt-3") ∧
  map initial_option (published_selects (trace run))
  = [select_a_provider_genai] ∧
  ¬ ∃ sel, sel ∈ published_selects (trace run) ∧
           startswith (value (initial_option sel)) "gpt-3" = true.
Proof.
  repeat split.
  intros (sel & Hin & Hstart).
  vm_compute in Hin. apply list_elem_of_singleton in Hin. subst sel.
  vm_compute in Hstart. discriminate.
Qed.

(** C2, as amended: when no saved provider/model pair is available (the
    store was not consulted, or returned nothing usable, or failed),
    [GENAI_API_URL] is set to a non-empty value and some option's value
    starts with ["genai-agent"], the first such option is the
    [initial_option] of the published dropdown, and no placeholder is
    added. *)
Theorem genai_default_selected (w : world) (event : gmap string string)
    (user_id genai_api_url : string) (providers : list (string * model_info))
    (opt : dropdown_option) :
  event !! "tab" = Some "home" → event !! "user" = Some user_id →
  get_available_providers w = Ok providers →
  no_saved_pair w user_id →
  environ w !! "GENAI_API_URL" = Some genai_api_url → genai_api_url ≠ "" →
  opt ∈ build_options (str_lower w) providers →
  startswith (value opt) "genai-agent" = true →
  ∃ first rest,
    List.filter (fun x => startswith (value x) "genai-agent")
      (build_options (str_lower w) providers) = first :: rest ∧
    published_selects (trace (app_home_opened_callback w event))
    = [ {| initial_option := first;
           options := build_options (str_lower w) providers;
           action_id := "pick_a_provider" |} ].
Proof.
  intros Htab Huser Hreg Hnone Hg Hgne Hin Hopt.
  apply no_saved_pair_selection in Hnone.
  assert (Hex : existsb is_genai_agent (build_options (str_lower w) providers) = true)
    by exact (existsb_elem_of is_genai_agent _ opt Hin Hopt).
  destruct (callback_home_summary w event user_id providers Htab Huser Hreg)
    as (t1 & state & t2 & chosen & o & Hr & Hpath & Hi & _ & Hsel & _).
  rewrite (saved_selection_state w user_id t1 state Hr) in Hnone.
  rewrite Hsel. clear Hsel.
  inversion Hpath as [p' m' first' rest' Hpm' Hf' | p' m' Hpm' Hf'
                     | Hpm' Hc | first rest Hpm' _ _ Hf]; subst;
    try (rewrite Hnone in Hpm'; discriminate).
  - rewrite Hg, (truthy_Some _ Hgne), Hex in Hc. discriminate.
  - exists first, rest. split; [exact Hf |].
    rewrite with_placeholder_chosen in Hi |- * by reflexivity.
    rewrite initial_or_last_chosen in Hi. injection Hi as <-.
    reflexivity.
Qed.

Lemma genai_default_selected_witness :
  ∃ first rest,
    List.filter (fun x => startswith (value x) "genai-agent")
      (build_options ascii_lower Sample.registry) = first :: rest ∧
    published_selects
      (trace (app_home_opened_callback Sample.nothing_saved Sample.home_event))
    = [ {| initial_option := first;
           options := build_options ascii_lower Sample.registry;
           action_id := "pick_a_provider" |} ].
Proof.
  apply (genai_default_selected Sample.nothing_saved Sample.home_event
           "U1" "https://agent" Sample.registry Sample.genai_option).
  - reflexivity.
  - reflexivity.
  - reflexivity.
  - right. right. exists None, None. split; reflexivity.
  - reflexivity.
  - discriminate.
  - apply list_elem_of_In. right. left. reflexivity.
  - reflexivity.
Defined.

(** C2, as stated, fails when [GENAI_API_URL] is set to the empty string:
    the variable is in the environment, no pair is saved and a genai-agent
    option exists, but the test of line 56 is on the truth value of the
    string, and the published initial option is the plain placeholder. *)
Lemma genai_default_selected_counterexample :
  let w := Sample.genai_url_empty in
  let run := app_home_opened_callback w Sample.home_event in
  environ w !! "GENAI_API_URL" = Some "" ∧
  no_saved_pair w "U1" ∧
  List.filter (fun x => startswith (value x) "genai-agent")
    (build_options ascii_lower Sample.registry) = [Sample.genai_option] ∧
  map initial_option (published_selects (trace run)) = [select_a_provider] ∧
  ¬ ∃ sel, sel ∈ published_selects (trace run) ∧
           startswith (value (initial_option sel)) "genai-agent" = true.
Proof.
  split; [reflexivity |]. split; [left; reflexivity |].
  split; [reflexivity |]. split; [reflexivity |].
  intros (sel & Hin & Hstart).
  vm_compute in Hin. apply list_elem_of_singleton in Hin. subst sel.
  vm_compute in Hstart. discriminate.
Qed.

(** *** The option list *)

Lemma build_options_length (lower : string → string)
    (providers : list (string * model_info)) :
  length (build_options lower providers) = length providers.
Proof. apply length_map. Qed.

Lemma build_options_lookup (lower : string → string)
    (providers : list (string * model_info))
    (i : nat) (model_name : string) (info : model_info) :
  providers !! i = Some (model_name, info) →
  build_options lower providers !! i
  = Some {| option_text :=
              {| text_type := "plain_text";
                 text := name info +:+ " (" +:+ provider info +:+ ")";
                 emoji := true |};
            value := model_name +:+ " " +:+ lower (provider info) |}.
Proof.
  intros H. unfold build_options. rewrite list_lookup_fmap_Some.
  exists (model_name, info). split; [reflexivity | exact H].
Qed.

Lemma with_placeholder_shape (w : world) (opts : list dropdown_option)
    (chosen : option (list dropdown_option)) :
  ∃ extra,
    with_placeholder w opts chosen = opts ++ extra ∧
    (extra = [] ∨ extra = [select_a_provider]
     ∨ extra = [select_a_provider_genai]).
Proof.
  unfold with_placeholder. destruct (truthy_list chosen); simpl.
  - exists []. rewrite app_nil_r. auto.
  - destruct (truthy (environ w !! "GENAI_API_URL")
              && existsb is_genai_agent opts); eauto.
Qed.

(** C3: the dropdown handed to Slack lists the registry as read in this
    invocation: entry [i] of [get_available_providers().items()], say
    [(model_name, model_info)], gives option [i], with label
    ["<name> (<provider>)"] and value ["<model_name> <provider lower-cased>"],
    the lower-casing being that of [str.lower] (for an ASCII provider name:
    A..Z mapped to a..z); there are as many such options as registry
    entries, in the same order, followed by nothing or by the one
    placeholder. *)
Theorem options_built_from_registry (w : world) (event : gmap string string)
    (user_id : string) (providers : list (string * model_info)) :
  event !! "tab" = Some "home" → event !! "user" = Some user_id →
  get_available_providers w = Ok providers →
  ∃ sel from_registry extra,
    published_selects (trace (app_home_opened_callback w event)) = [sel] ∧
    options sel = from_registry ++ extra ∧
    length from_registry = length providers ∧
    (∀ i model_name info,
        providers !! i = Some (model_name, info) →
        from_registry !! i
        = Some {| option_text :=
                    {| text_type := "plain_text";
                       text := name info +:+ " (" +:+ provider info +:+ ")";
                       emoji := true |};
                  value := model_name +:+ " "
                           +:+ str_lower w (provider info) |}) ∧
    (lowers_ascii (str_lower w) →
     ∀ i model_name info,
       providers !! i = Some (model_name, info) →
       is_ascii (provider info) = true →
       value <$> from_registry !! i
       = Some (model_name +:+ " " +:+ ascii_lower (provider info))) ∧
    (extra = [] ∨ extra = [select_a_provider]
     ∨ extra = [select_a_provider_genai]).
Proof.
  intros Htab Huser Hreg.
  destruct (callback_home_summary w event user_id providers Htab Huser Hreg)
    as (t1 & state & t2 & chosen & o & _ & _ & _ & _ & Hsel & _).
  destruct (with_placeholder_shape w (build_options (str_lower w) providers)
              chosen) as (extra & Hshape & Hextra).
  eexists _, (build_options (str_lower w) providers), extra.
  split; [exact Hsel |]. cbn [options].
  split; [exact Hshape |].
  split; [apply build_options_length |].
  split; [intros i model_name info; apply build_options_lookup |].
  split; [| exact Hextra].
  intros Hlower i model_name info Hi Hascii.
  rewrite (build_options_lookup _ providers i model_name info Hi).
  cbn [fmap option_fmap option_map value].
  by rewrite (Hlower _ Hascii).
Qed.

Lemma options_built_from_registry_witness :
  ∃ sel extra,
    published_selects
      (trace (app_home_opened_callback Sample.remembers_stale
                Sample.home_event)) = [sel] ∧
    options sel
    = [ {| option_text := plain_text "GPT-4o (OpenAI)";
           value := "gpt-4o openai" |};
        {| option_text := plain_text "GenAI Agent (GenAI)";
           value := "genai-agent genai" |} ] ++ extra ∧
    (extra = [] ∨ extra = [select_a_provider]
     ∨ extra = [select_a_provider_genai]).
Proof.
  destruct (options_built_from_registry Sample.remembers_stale
              Sample.home_event "U1" Sample.registry eq_refl eq_refl eq_refl)
    as (sel & from_registry & extra & Hsel & Hopts & Hlen & Hat & _ & Hextra).
  exists sel, extra. split; [exact Hsel |]. split; [| exact Hextra].
  rewrite Hopts. f_equal.
  pose proof (Hat 0%nat _ _ eq_refl) as H0.
  pose proof (Hat 1%nat _ _ eq_refl) as H1.
  destruct from_registry as [|a [|b [|c l]]]; try discriminate.
  injection H0 as ->. injection H1 as ->. reflexivity.
Defined.

(** *** A failing read against an empty store *)

(** C4: when the read of the store raises, the failure is printed, the
    variables [provider] and [model] stay [None], and from there on the run
    is that of a store with nothing saved: the two traces differ by the
    failure line only, the "no provider selection" branch is taken, and the
    callback returns normally. *)
Theorem store_read_failure_is_no_preference (w : world)
    (event : gmap string string) (user_id url : string)
    (providers : list (string * model_info)) (e : exn) :
  event !! "tab" = Some "home" → event !! "user" = Some user_id →
  get_available_providers w = Ok providers →
  environ w !! "REDIS_URL" = Some url → url ≠ "" →
  get_redis_user_state w user_id true (Some url) = Raise e →
  let empty_store :=
    with_get_redis_user_state (fun _ _ _ => Ok (None, None)) w in
  let failure :=
    EPrint ("⚠️ Failed to get user state from Redis: " +:+ exn_str e) in
  ∃ before after,
    app_home_opened_callback w event = (before ++ failure :: after, Ok tt) ∧
    app_home_opened_callback empty_store event = (before ++ after, Ok tt) ∧
    outcome (retrieve_user_state w user_id (Some url)) = Ok (None, None) ∧
    saved_selection w user_id = None ∧
    EPrint ("ℹ️ No provider selection found for user: " +:+ user_id) ∈ after.
Proof.
  intros Htab Huser Hreg Hurl Hne Hget empty_store failure.
  pose proof (truthy_Some url Hne) as Htruthy.
  pose proof (retrieve_raised w user_id (Some url) e Htruthy Hget) as Hr.
  assert (Hr' : retrieve_user_state empty_store user_id (Some url)
                = ([EGetRedisUserState user_id true (Some url)],
                   Ok (None, None)))
    by (apply retrieve_returned; [exact Htruthy | reflexivity]).
  set (opts := build_options (str_lower w) providers).
  destruct (choose_paths w user_id (Some url) opts None None)
    as (t2 & chosen & Hc & Hpath).
  destruct (initial_or_last_total w opts chosen) as (o & Hi).
  exists [EPrint ("🏠 App Home opened by user: " +:+ user_id);
          EGetAvailableProviders;
          EGetRedisUserState user_id true (Some url)].
  exists (t2 ++ EViewsPublish user_id
                  (home_view o (with_placeholder w opts chosen))
             :: publish_report_trace w user_id
                  (home_view o (with_placeholder w opts chosen))).
  split; [| split; [| split; [| split]]].
  - pose proof (callback_home_run w event user_id providers Htab Huser Hreg
                  [EGetRedisUserState user_id true (Some url); failure]
                  t2 (None, None) chosen o) as Hrun.
    cbv zeta in Hrun. rewrite Hurl in Hrun.
    rewrite (Hrun Hr Hc Hi). reflexivity.
  - pose proof (callback_home_run empty_store event user_id providers Htab
                  Huser Hreg [EGetRedisUserState user_id true (Some url)]
                  t2 (None, None) chosen o) as Hrun.
    cbv zeta in Hrun.
    change (environ empty_store) with (environ w) in Hrun.
    rewrite Hurl in Hrun.
    rewrite (Hrun Hr' Hc Hi). reflexivity.
  - rewrite Hr. reflexivity.
  - apply no_saved_pair_selection. right. left. exists e.
    rewrite Hurl. exact Hget.
  - apply elem_of_app. left.
    inversion Hpath; subst; try discriminate; apply list_elem_of_here.
Qed.

Lemma store_read_failure_is_no_preference_witness :
  let empty_store :=
    with_get_redis_user_state (fun _ _ _ => Ok (None, None)) Sample.all_down in
  let failure := EPrint "⚠️ Failed to get user state from Redis: timeout" in
  ∃ before after,
    app_home_opened_callback Sample.all_down Sample.home_event
    = (before ++ failure :: after, Ok tt) ∧
    app_home_opened_callback empty_store Sample.home_event
    = (before ++ after, Ok tt) ∧
    outcome (retrieve_user_state Sample.all_down "U1" (Some "redis://cache"))
    = Ok (None, None) ∧
    saved_selection Sample.all_down "U1" = None ∧
    EPrint "ℹ️ No provider selection found for user: U1" ∈ after.
Proof.
  apply (store_read_failure_is_no_preference Sample.all_down Sample.home_event
           "U1" "redis://cache" Sample.registry (OtherException "timeout"));
    first [reflexivity | discriminate].
Defined.

(** *** Failures of the write and of the publish *)

Lemma elem_of_filter_true (p : effect → bool) (t : list effect) (ev : effect) :
  ev ∈ t → p ev = true → ev ∈ List.filter p t.
Proof.
  intros Hin Hp. apply list_elem_of_In, filter_In.
  split; [by apply list_elem_of_In | exact Hp].
Qed.

(** C5: on every run that gets as far as the store and the publish (home
    tab, user present, registry read), whatever [set_redis_user_state] and
    [views_publish] do, the callback returns normally.  Each is called at
    most once, the publish exactly once: there is no retry.  A write that raises is reported on
    stderr and through the logger, and the publish still follows it; a
    publish that raises is reported the same way. *)
Theorem write_and_publish_failures_contained (w : world)
    (event : gmap string string) (user_id : string)
    (providers : list (string * model_info)) :
  event !! "tab" = Some "home" → event !! "user" = Some user_id →
  get_available_providers w = Ok providers →
  let run := app_home_opened_callback w event in
  outcome run = Ok tt ∧
  (length (List.filter is_store_write (trace run)) ≤ 1)%nat ∧
  length (List.filter is_publish (trace run)) = 1%nat ∧
  (∀ ev e,
      ev ∈ trace run → is_store_write ev = true →
      set_redis_user_state w user_id "genai" "genai-agent"
        (environ w !! "REDIS_URL") = Raise e →
      ev = ESetRedisUserState user_id "genai" "genai-agent"
             (environ w !! "REDIS_URL") ∧
      EPrintErr ("❌ Error saving default GenAI selection: " +:+ exn_str e)
        ∈ trace run ∧
      ELoggerError ("Error saving default GenAI selection: " +:+ exn_str e)
        ∈ trace run ∧
      ∃ t_before t_after v,
        trace run = t_before ++ ev :: t_after ∧
        EViewsPublish user_id v ∈ t_after) ∧
  (∀ uid v e,
      EViewsPublish uid v ∈ trace run →
      views_publish w uid v = Raise e →
      EPrintErr ("❌ Error publishing home view: " +:+ exn_str e) ∈ trace run ∧
      ELoggerError (exn_str e) ∈ trace run).
Proof.
  intros Htab Huser Hreg run.
  destruct (callback_home_summary w event user_id providers Htab Huser Hreg)
    as (t1 & state & t2 & chosen & o & Hr & Hpath & Hi & Hout & _ & Hpub & _
        & Hwrites & _ & Hrun).
  fold run in Hout, Hpub, Hwrites, Hrun.
  pose proof (choose_path_writes w user_id _ _ _ _ _ _ Hpath) as Hw2.
  split; [exact Hout |].
  split.
  { rewrite Hwrites, Hw2.
    destruct (provider_and_model state.1 state.2); [simpl; lia |].
    destruct (truthy (environ w !! "GENAI_API_URL")
              && existsb is_genai_agent (build_options (str_lower w) providers)
              && truthy (environ w !! "REDIS_URL")); simpl; lia. }
  split; [rewrite Hpub; reflexivity |].
  split.
  - intros ev e Hin Hev Hset.
    pose proof (elem_of_filter_true is_store_write _ ev Hin Hev) as Hfin.
    rewrite Hwrites in Hfin.
    inversion Hpath as [p m first rest Hpm Hf | p m Hpm Hf | Hpm Hc
                       | first rest Hpm Hg Hex Hf]; subst t2;
      try (by apply elem_of_nil in Hfin).
    cbn [List.filter is_store_write] in Hfin.
    rewrite save_default_writes in Hfin.
    destruct (truthy (environ w !! "REDIS_URL")) eqn:Hurl;
      [| by apply elem_of_nil in Hfin].
    apply list_elem_of_singleton in Hfin. subst ev.
    split; [reflexivity |].
    rewrite Hrun. unfold save_default_trace. rewrite Hurl, Hset.
    split; [| split].
    + set_solver.
    + set_solver.
    + eexists (_ :: _ :: t1 ++ [_; _]), _, _.
      split.
      * cbn [app]. rewrite <- app_assoc. reflexivity.
      * do 2 apply list_elem_of_further. apply list_elem_of_here.
  - intros uid v e Hin Hraise.
    pose proof (elem_of_filter_true is_publish _ _ Hin eq_refl) as Hfin.
    rewrite Hpub in Hfin. apply list_elem_of_singleton in Hfin.
    injection Hfin as -> ->.
    rewrite Hrun. unfold publish_report_trace. rewrite Hraise.
    split; set_solver.
Qed.

Lemma write_and_publish_failures_contained_witness :
  let run := app_home_opened_callback Sample.all_down Sample.home_event in
  outcome run = Ok tt ∧
  (length (List.filter is_store_write (trace run)) ≤ 1)%nat ∧
  length (List.filter is_publish (trace run)) = 1%nat ∧
  ELoggerError "Error saving default GenAI selection: read only" ∈ trace run ∧
  ELoggerError "ratelimited" ∈ trace run.
Proof.
  destruct (write_and_publish_failures_contained Sample.all_down
              Sample.home_event "U1" Sample.registry eq_refl eq_refl eq_refl)
    as (Hout & Hwrites & Hpublishes & Hwrite & Hpublish).
  split; [exact Hout |]. split; [exact Hwrites |].
  split; [exact Hpublishes |]. split.
  - apply (Hwrite (ESetRedisUserState "U1" "genai" "genai-agent"
                     (Some "redis://cache")) (OtherException "read only"));
      [| reflexivity | reflexivity].
    apply list_elem_of_In. vm_compute. tauto.
  - apply (Hpublish "U1"
             (home_view Sample.genai_option
                [Sample.gpt_option; Sample.genai_option])
             (OtherException "ratelimited")); [| reflexivity].
    apply list_elem_of_In. vm_compute. tauto.
Defined.

(** *** Writes to the store *)

(** Before the registry has answered, nothing has touched the store. *)
Lemma early_exit_no_write (w : world) (event : gmap string string) :
  event !! "tab" ≠ Some "home" ∨ event !! "user" = None
  ∨ (∃ e, get_available_providers w = Raise e) →
  List.filter is_store_write (trace (app_home_opened_callback w event)) = [].
Proof.
  intros Hearly.
  destruct (event !! "tab") as [tab|] eqn:Htab;
    [| by rewrite (callback_no_tab w event Htab)].
  destruct (decide (tab = "home")) as [-> | Hne];
    [| by rewrite (callback_not_home w event tab Htab Hne)].
  destruct (event !! "user") as [user_id|] eqn:Huser;
    [| by rewrite (callback_no_user w event Htab Huser)].
  destruct Hearly as [H | [H | [e Hreg]]]; [done | done |].
  by rewrite (callback_registry_raises w event user_id e Htab Huser Hreg).
Qed.

(** C6, as amended: the handler writes to the user-state store at most
    once, through [set_redis_user_state(user_id, "genai", "genai-agent",
    redis_url)], and exactly when no saved pair reached the selection
    policy, [GENAI_API_URL] is non-empty, some option's value starts with
    ["genai-agent"] and [REDIS_URL] is non-empty; in every other run it
    performs no write. *)
Theorem store_written_only_for_default (w : world)
    (event : gmap string string) :
  let writes :=
    List.filter is_store_write (trace (app_home_opened_callback w event)) in
  (∀ user_id providers,
      event !! "tab" = Some "home" → event !! "user" = Some user_id →
      get_available_providers w = Ok providers →
      writes
      = match saved_selection w user_id with
        | Some _ => []
        | None =>
            if truthy (environ w !! "GENAI_API_URL")
               && existsb (fun opt => startswith (value opt) "genai-agent")
                    (build_options (str_lower w) providers)
               && truthy (environ w !! "REDIS_URL")
            then [ESetRedisUserState user_id "genai" "genai-agent"
                    (environ w !! "REDIS_URL")]
            else []
        end) ∧
  (event !! "tab" ≠ Some "home" ∨ event !! "user" = None
   ∨ (∃ e, get_available_providers w = Raise e) →
   writes = []).
Proof.
  intros writes. split; [| apply early_exit_no_write].
  intros user_id providers Htab Huser Hreg.
  destruct (callback_home_summary w event user_id providers Htab Huser Hreg)
    as (t1 & state & t2 & chosen & o & Hr & Hpath & _ & _ & _ & _ & _
        & Hwrites & _).
  unfold writes.
  rewrite Hwrites, (saved_selection_state w user_id t1 state Hr).
  apply (choose_path_writes w user_id _ _ _ _ _ _ Hpath).
Qed.

Lemma store_written_only_for_default_witness :
  List.filter is_store_write
    (trace (app_home_opened_callback Sample.nothing_saved Sample.home_event))
  = [ESetRedisUserState "U1" "genai" "genai-agent" (Some "redis://cache")].
Proof.
  apply (proj1 (store_written_only_for_default Sample.nothing_saved
                  Sample.home_event) "U1" Sample.registry); reflexivity.
Defined.

(** C6, as stated, fails: with Redis configured, nothing saved for the user
    and the GenAI agent available, the handler calls
    [set_redis_user_state]. *)
Lemma store_never_written_counterexample :
  let run :=
    app_home_opened_callback Sample.nothing_saved Sample.home_event in
  ESetRedisUserState "U1" "genai" "genai-agent" (Some "redis://cache")
    ∈ trace run ∧
  ¬ List.filter is_store_write (trace run) = [].
Proof.
  split.
  - apply list_elem_of_In. vm_compute. tauto.
  - vm_compute. discriminate.
Qed.

(** *** A stale selection *)

(** The placeholder that announces GenAI as fallback is appended on the
    stale path and on no other: lines 72-78 exist for that path. *)
Lemma genai_placeholder_only_when_stale (w : world) (user_id : string)
    (redis_url : option string) (opts : list dropdown_option)
    (provider model : option string) (t : list effect)
    (chosen : option (list dropdown_option)) :
  choose_path w user_id redis_url opts provider model t chosen →
  with_placeholder w opts chosen = opts ++ [select_a_provider_genai] →
  ∃ p m,
    provider_and_model provider model = Some (p, m) ∧
    List.filter (fun x => startswith (value x) m) opts = [].
Proof.
  intros [p m first rest Hpm Hf | p m Hpm Hf | Hpm Hc | first rest Hpm Hg Hex Hf]
    Hplace.
  - rewrite with_placeholder_chosen in Hplace by reflexivity.
    apply (f_equal length) in Hplace. rewrite length_app in Hplace.
    simpl in Hplace. lia.
  - eauto.
  - rewrite with_placeholder_none, Hc in Hplace by reflexivity.
    apply app_inv_head in Hplace. discriminate.
  - rewrite with_placeholder_chosen in Hplace by reflexivity.
    apply (f_equal length) in Hplace. rewrite length_app in Hplace.
    simpl in Hplace. lia.
Qed.

(** C7, as amended: when the store returns a saved provider and model but
    no option's value starts with the saved model, no registry option is
    pre-selected.  With [GENAI_API_URL] non-empty and a genai-agent option
    present, the placeholder labelled "Select a provider (GenAI used as
    fallback)", value ["null"], is appended after the registry options and
    is the initial option of the published dropdown; the genai-agent option
    is only one of the listed options, and nothing is written to the
    store. *)
Theorem stale_selection_shows_placeholder (w : world)
    (event : gmap string string) (user_id url p m genai_api_url : string)
    (providers : list (string * model_info)) (opt : dropdown_option) :
  event !! "tab" = Some "home" → event !! "user" = Some user_id →
  get_available_providers w = Ok providers →
  environ w !! "REDIS_URL" = Some url → url ≠ "" →
  get_redis_user_state w user_id true (Some url) = Ok (Some p, Some m) →
  p ≠ "" → m ≠ "" →
  List.filter (fun x => startswith (value x) m) (build_options (str_lower w) providers) = [] →
  environ w !! "GENAI_API_URL" = Some genai_api_url → genai_api_url ≠ "" →
  opt ∈ build_options (str_lower w) providers →
  startswith (value opt) "genai-agent" = true →
  let run := app_home_opened_callback w event in
  published_selects (trace run)
  = [ {| initial_option := select_a_provider_genai;
         options := build_options (str_lower w) providers ++ [select_a_provider_genai];
         action_id := "pick_a_provider" |} ] ∧
  startswith (value select_a_provider_genai) "genai-agent" = false ∧
  List.filter is_store_write (trace run) = [].
Proof.
  intros Htab Huser Hreg Hurl Hne Hget Hp Hm Hf Hg Hgne Hin Hopt run.
  pose proof (saved_selection_returned w user_id url p m Hurl Hne Hget Hp Hm)
    as Hsaved.
  assert (Hex : existsb is_genai_agent (build_options (str_lower w) providers) = true)
    by exact (existsb_elem_of is_genai_agent _ opt Hin Hopt).
  destruct (callback_home_summary w event user_id providers Htab Huser Hreg)
    as (t1 & state & t2 & chosen & o & Hr & Hpath & Hi & _ & Hsel & _ & _
        & Hwrites & _).
  fold run in Hsel, Hwrites.
  rewrite (saved_selection_state w user_id t1 state Hr) in Hsaved.
  split; [| split; [reflexivity |]].
  - rewrite Hsel. clear Hsel.
    inversion Hpath as [p' m' first' rest' Hpm' Hf' | p' m' Hpm' Hf'
                       | Hpm' _ | first' rest' Hpm' _ _ _]; subst;
      rewrite Hsaved in Hpm'; try discriminate; injection Hpm' as <- <-;
      rewrite Hf in Hf'; try discriminate.
    rewrite with_placeholder_none in Hi |- * by reflexivity.
    rewrite Hg, (truthy_Some _ Hgne), Hex in Hi |- *. cbn [andb] in Hi |- *.
    rewrite initial_or_last_placeholder in Hi by reflexivity.
    injection Hi as <-. reflexivity.
  - rewrite Hwrites, (choose_path_writes w user_id _ _ _ _ _ _ Hpath), Hsaved.
    reflexivity.
Qed.

Lemma stale_selection_shows_placeholder_witness :
  let run :=
    app_home_opened_callback Sample.remembers_stale Sample.home_event in
  published_selects (trace run)
  = [ {| initial_option := select_a_provider_genai;
         options := [Sample.gpt_option; Sample.genai_option;
                     select_a_provider_genai];
         action_id := "pick_a_provider" |} ] ∧
  startswith (value select_a_provider_genai) "genai-agent" = false ∧
  List.filter is_store_write (trace run) = [].
Proof.
  apply (stale_selection_shows_placeholder Sample.remembers_stale
           Sample.home_event "U1" "redis://cache" "openai" "gpt-3"
           "https://agent" Sample.registry Sample.genai_option);
    try first [reflexivity | discriminate].
  apply list_elem_of_In. right. left. reflexivity.
Defined.

(** C7, as stated, fails: the store returns [("openai", "gpt-3")], no
    option's value starts with ["gpt-3"], [GENAI_API_URL] is set and the
    genai-agent option exists; yet the initial option of the published
    dropdown is the placeholder and not the genai-agent option. *)
Lemma stale_selection_falls_back_counterexample :
  let w := Sample.remembers_stale in
  let opts := build_options ascii_lower Sample.registry in
  let run := app_home_opened_callback w Sample.home_event in
  get_redis_user_state w "U1" true (environ w !! "REDIS_URL")
  = Ok (Some "openai", Some "gpt-3") ∧
  List.filter (fun x => startswith (value x) "gpt-3") opts = [] ∧
  environ w !! "GENAI_API_URL" = Some "https://agent" ∧
  List.filter (fun x => startswith (value x) "genai-agent") opts
  = [Sample.genai_option] ∧
  ¬ ∃ sel, sel ∈ published_selects (trace run) ∧
           startswith (value (initial_option sel)) "genai-agent" = true.
Proof.
  repeat split.
  intros (sel & Hin & Hstart).
  vm_compute in Hin. apply list_elem_of_singleton in Hin. subst sel.
  vm_compute in Hstart. discriminate.
Qed.

(** *** The published initial option *)

(** C8: every run that reaches the publish step hands [views_publish] one
    dropdown whose option list is non-empty and contains its
    [initial_option].  Either an option was chosen earlier (the first match
    of the saved model, or the first genai-agent option of the fallback)
    and the options are the registry's, unchanged; or none was chosen, and
    the initial option is the placeholder of value ["null"] appended as the
    last element. *)
Theorem published_initial_option_is_listed (w : world)
    (event : gmap string string) (user_id : string)
    (providers : list (string * model_info)) :
  event !! "tab" = Some "home" → event !! "user" = Some user_id →
  get_available_providers w = Ok providers →
  let opts := build_options (str_lower w) providers in
  let genai :=
    truthy (environ w !! "GENAI_API_URL")
    && existsb (fun opt => startswith (value opt) "genai-agent") opts in
  ∃ sel,
    published_selects (trace (app_home_opened_callback w event)) = [sel] ∧
    options sel ≠ [] ∧
    initial_option sel ∈ options sel ∧
    ((options sel = opts ∧
      ((∃ p m rest,
           saved_selection w user_id = Some (p, m) ∧
           List.filter (fun x => startswith (value x) m) opts
           = initial_option sel :: rest) ∨
       (∃ rest,
           saved_selection w user_id = None ∧ genai = true ∧
           List.filter (fun x => startswith (value x) "genai-agent") opts
           = initial_option sel :: rest))) ∨
     (options sel = opts ++ [initial_option sel] ∧
      last (options sel) = Some (initial_option sel) ∧
      value (initial_option sel) = "null" ∧
      ((∃ p m,
           saved_selection w user_id = Some (p, m) ∧
           List.filter (fun x => startswith (value x) m) opts = []) ∨
       (saved_selection w user_id = None ∧ genai = false)))).
Proof.
  intros Htab Huser Hreg opts genai.
  destruct (callback_home_summary w event user_id providers Htab Huser Hreg)
    as (t1 & state & t2 & chosen & o & Hr & Hpath & Hi & _ & Hsel & _).
  fold opts in Hpath, Hi, Hsel.
  pose proof (saved_selection_state w user_id t1 state Hr) as Hsaved.
  eexists. split; [exact Hsel |]. cbn [options initial_option].
  inversion Hpath as [p m first rest Hpm Hf | p m Hpm Hf | Hpm Hc
                     | first rest Hpm Hg Hex Hf]; subst t2 chosen.
  - rewrite with_placeholder_chosen in Hi |- * by reflexivity.
    rewrite initial_or_last_chosen in Hi. injection Hi as <-.
    destruct (filter_head_elem_of _ _ _ _ Hf) as [Hin _].
    split; [by intros ->; apply elem_of_nil in Hin |].
    split; [exact Hin |].
    left. split; [reflexivity |]. left. exists p, m, rest.
    split; [congruence | exact Hf].
  - rewrite with_placeholder_none in Hi |- * by reflexivity.
    rewrite initial_or_last_placeholder in Hi by reflexivity.
    injection Hi as <-.
    split; [by destruct opts |].
    split; [apply elem_of_app; right; apply list_elem_of_here |].
    right. split; [reflexivity |]. split; [apply last_snoc |].
    split; [by destruct (_ && _) |].
    left. exists p, m. split; [congruence | exact Hf].
  - rewrite with_placeholder_none in Hi |- * by reflexivity.
    rewrite initial_or_last_placeholder in Hi by reflexivity.
    injection Hi as <-.
    split; [by destruct opts |].
    split; [apply elem_of_app; right; apply list_elem_of_here |].
    right. split; [reflexivity |]. split; [apply last_snoc |].
    split; [by destruct (_ && _) |].
    right. split; [congruence | exact Hc].
  - rewrite with_placeholder_chosen in Hi |- * by reflexivity.
    rewrite initial_or_last_chosen in Hi. injection Hi as <-.
    destruct (filter_head_elem_of _ _ _ _ Hf) as [Hin _].
    split; [by intros ->; apply elem_of_nil in Hin |].
    split; [exact Hin |].
    left. split; [reflexivity |]. right. exists rest.
    split; [congruence |]. split; [| exact Hf].
    unfold genai. fold is_genai_agent. by rewrite Hg, Hex.
Qed.

Lemma published_initial_option_is_listed_witness :
  ∃ sel,
    published_selects
      (trace (app_home_opened_callback Sample.no_redis Sample.home_event))
    = [sel] ∧
    options sel ≠ [] ∧
    initial_option sel ∈ options sel.
Proof.
  destruct (published_initial_option_is_listed Sample.no_redis
              Sample.home_event "U1" Sample.registry eq_refl eq_refl eq_refl)
    as (sel & Hsel & Hne & Hin & _).
  exists sel. auto.
Defined.

(** ** Beyond the claims: failures before the store is reached *)

(** X1: A missing key of the event surfaces as a [KeyError] before anything
    is printed or called: ["tab"] is read first, for every event; ["user"]
    is read only on the home tab, so an event of another tab that names no
    user still returns normally. *)
Theorem missing_event_key_raises_first (w : world)
    (event : gmap string string) :
  (event !! "tab" = None →
   app_home_opened_callback w event = ([], Raise (KeyError "tab"))) ∧
  (event !! "tab" = Some "home" → event !! "user" = None →
   app_home_opened_callback w event = ([], Raise (KeyError "user"))) ∧
  (∀ tab, event !! "tab" = Some tab → tab ≠ "home" →
          event !! "user" = None →
          app_home_opened_callback w event = ([], Ok tt)).
Proof.
  split; [apply callback_no_tab |]. split; [apply callback_no_user |].
  intros tab Htab Hne _. by apply (callback_not_home w event tab).
Qed.

Lemma missing_event_key_raises_first_witness :
  app_home_opened_callback Sample.all_down Scenario.anonymous_home
  = ([], Raise (KeyError "user")).
Proof.
  apply (proj1 (proj2 (missing_event_key_raises_first Sample.all_down
                         Scenario.anonymous_home))); reflexivity.
Defined.

(** X2: The call of the registry is under no [try]: when it raises, its
    exception leaves the callback, after the greeting and that one call
    only; the store has been neither read nor written and nothing has been
    published. *)
Theorem registry_failure_propagates (w : world) (event : gmap string string)
    (user_id : string) (e : exn) :
  event !! "tab" = Some "home" → event !! "user" = Some user_id →
  get_available_providers w = Raise e →
  let run := app_home_opened_callback w event in
  run = ([greeting user_id; EGetAvailableProviders], Raise e) ∧
  List.filter is_store_read (trace run) = [] ∧
  List.filter is_store_write (trace run) = [] ∧
  List.filter is_publish (trace run) = [].
Proof.
  intros Htab Huser Hreg run. unfold run.
  rewrite (callback_registry_raises w event user_id e Htab Huser Hreg).
  repeat split.
Qed.

Lemma registry_failure_propagates_witness :
  let run :=
    app_home_opened_callback Scenario.registry_down Sample.home_event in
  run = ([greeting "U1"; EGetAvailableProviders],
         Raise (OtherException "no providers")) ∧
  List.filter is_store_read (trace run) = [] ∧
  List.filter is_store_write (trace run) = [] ∧
  List.filter is_publish (trace run) = [].
Proof.
  apply (registry_failure_propagates Scenario.registry_down Sample.home_event
           "U1" (OtherException "no providers")); reflexivity.
Defined.

(** ** Beyond the claims: order of the calls *)

Section CallOrder.

Variables (w : world) (user_id : string).

Local Arguments String.append : simpl never.

(** With Redis configured the read stage starts with the read. *)
Lemma retrieve_starts_with_read (redis_url : option string)
    (t : list effect) (state : option string * option string) :
  truthy redis_url = true →
  retrieve_user_state w user_id redis_url = (t, Ok state) →
  ∃ t', t = EGetRedisUserState user_id true redis_url :: t' ∧
        List.filter is_store_read t' = [] ∧
        List.filter is_registry_read t' = [].
Proof.
  intros Hurl. unfold retrieve_user_state. rewrite Hurl.
  destruct (get_redis_user_state w user_id true redis_url);
    intros [= <- <-]; eexists; repeat split.
Qed.

End CallOrder.

(** X3: With [REDIS_URL] non-empty, a run on the home tab starts with the
    greeting, then reads the registry, then reads the store, once and with
    the arguments [(user_id, True, redis_url)]; neither is read again. *)
Theorem registry_then_store_read (w : world) (event : gmap string string)
    (user_id url : string) (providers : list (string * model_info)) :
  event !! "tab" = Some "home" → event !! "user" = Some user_id →
  get_available_providers w = Ok providers →
  environ w !! "REDIS_URL" = Some url → url ≠ "" →
  ∃ rest,
    trace (app_home_opened_callback w event)
    = greeting user_id :: EGetAvailableProviders
      :: EGetRedisUserState user_id true (Some url) :: rest ∧
    List.filter is_store_read rest = [] ∧
    List.filter is_registry_read rest = [].
Proof.
  intros Htab Huser Hreg Hurl Hne.
  destruct (callback_home_summary w event user_id providers Htab Huser Hreg)
    as (t1 & state & t2 & chosen & o & Hr & Hpath & _ & _ & _ & _ & _ & _ & _
        & Hrun).
  rewrite Hurl in Hr, Hpath.
  destruct (retrieve_starts_with_read w user_id (Some url) t1 state
              (truthy_Some url Hne) Hr) as (t1' & -> & Hreads & Hregs).
  destruct (choose_path_quiet w user_id _ _ _ _ _ _ Hpath) as (_ & _ & Hr2).
  pose proof (choose_path_no_registry w user_id _ _ _ _ _ _ Hpath) as Hg2.
  eexists. split; [rewrite Hrun; reflexivity |].
  rewrite !List.filter_app. cbn [List.filter is_store_read is_registry_read].
  rewrite Hreads, Hregs, Hr2, Hg2.
  rewrite publish_report_no_read, publish_report_no_registry.
  split; reflexivity.
Qed.

Lemma registry_then_store_read_witness :
  ∃ rest,
    trace (app_home_opened_callback Sample.all_down Sample.home_event)
    = greeting "U1" :: EGetAvailableProviders
      :: EGetRedisUserState "U1" true (Some "redis://cache") :: rest ∧
    List.filter is_store_read rest = [] ∧
    List.filter is_registry_read rest = [].
Proof.
  apply (registry_then_store_read Sample.all_down Sample.home_event "U1"
           "redis://cache" Sample.registry);
    first [reflexivity | discriminate].
Defined.

(** X4: The handler never writes the default without having first asked the
    store in the same run: every write in the trace comes after the read,
    and before the publish. *)
Theorem write_between_read_and_publish (w : world)
    (event : gmap string string) (user_id : string)
    (providers : list (string * model_info)) (ev : effect) :
  event !! "tab" = Some "home" → event !! "user" = Some user_id →
  get_available_providers w = Ok providers →
  ev ∈ trace (app_home_opened_callback w event) →
  is_store_write ev = true →
  ∃ before after,
    trace (app_home_opened_callback w event) = before ++ ev :: after ∧
    EGetRedisUserState user_id true (environ w !! "REDIS_URL") ∈ before ∧
    List.filter is_publish before = [] ∧
    List.filter is_store_write before = [] ∧
    List.filter is_store_read after = [] ∧
    length (List.filter is_publish after) = 1%nat.
Proof.
  intros Htab Huser Hreg Hin Hev.
  destruct (callback_home_summary w event user_id providers Htab Huser Hreg)
    as (t1 & state & t2 & chosen & o & Hr & Hpath & _ & _ & _ & _ & _
        & Hwrites & _ & Hrun).
  pose proof (elem_of_filter_true is_store_write _ ev Hin Hev) as Hfin.
  rewrite Hwrites in Hfin.
  inversion Hpath as [p m first rest Hpm Hf | p m Hpm Hf | Hpm Hc
                     | first rest Hpm Hg Hex Hf]; subst t2;
    try (by apply elem_of_nil in Hfin).
  cbn [List.filter is_store_write] in Hfin.
  rewrite save_default_writes in Hfin.
  destruct (truthy (environ w !! "REDIS_URL")) eqn:Hurl;
    [| by apply elem_of_nil in Hfin].
  apply list_elem_of_singleton in Hfin. subst ev.
  destruct (retrieve_starts_with_read w user_id _ t1 state Hurl Hr)
    as (t1' & -> & _ & _).
  destruct (retrieve_trace w user_id _ _ _ Hr) as (_ & Hp1 & Hw1 & _).
  rewrite Hrun. unfold save_default_trace. rewrite Hurl.
  eexists (_ :: _ :: (_ :: t1') ++ [_; _]), _.
  split; [cbn [app]; rewrite <- app_assoc; reflexivity |].
  split; [do 2 apply list_elem_of_further; apply list_elem_of_here |].
  cbn [app List.filter is_publish is_store_write] in Hp1, Hw1 |- *.
  rewrite !List.filter_app, Hp1, Hw1.
  split; [reflexivity |]. split; [reflexivity |].
  destruct (set_redis_user_state w user_id "genai" "genai-agent"
              (environ w !! "REDIS_URL"));
    cbn [app List.filter is_store_read is_publish];
    rewrite publish_report_no_read, publish_report_no_publish;
    split; reflexivity.
Qed.

Lemma write_between_read_and_publish_witness :
  ∃ before after,
    trace (app_home_opened_callback Sample.nothing_saved Sample.home_event)
    = before
      ++ ESetRedisUserState "U1" "genai" "genai-agent" (Some "redis://cache")
      :: after ∧
    EGetRedisUserState "U1" true (Some "redis://cache") ∈ before ∧
    List.filter is_publish before = [] ∧
    List.filter is_store_write before = [] ∧
    List.filter is_store_read after = [] ∧
    length (List.filter is_publish after) = 1%nat.
Proof.
  apply (write_between_read_and_publish Sample.nothing_saved Sample.home_event
           "U1" Sample.registry
           (ESetRedisUserState "U1" "genai" "genai-agent"
              (Some "redis://cache")));
    try reflexivity.
  apply list_elem_of_In. vm_compute. tauto.
Defined.

(** ** Beyond the claims: the dropdown as a function of its inputs *)

Lemma existsb_false_filter {A : Type} (p : A → bool) (l : list A) :
  existsb p l = false → List.filter p l = [].
Proof.
  induction l as [|a l IH]; simpl; [reflexivity |].
  destruct (p a); simpl; [discriminate | exact IH].
Qed.

Lemma home_run_select (w : world) (event : gmap string string)
    (user_id : string) (providers : list (string * model_info)) :
  event !! "tab" = Some "home" → event !! "user" = Some user_id →
  get_available_providers w = Ok providers →
  published_selects (trace (app_home_opened_callback w event))
  = [expected_select (environ w !! "GENAI_API_URL")
      (saved_selection w user_id) (build_options (str_lower w) providers)].
Proof.
  intros Htab Huser Hreg.
  destruct (callback_home_summary w event user_id providers Htab Huser Hreg)
    as (t1 & state & t2 & chosen & o & Hr & Hpath & Hi & _ & Hsel & _).
  rewrite Hsel. clear Hsel.
  pose proof (saved_selection_state w user_id t1 state Hr) as Hsaved.
  unfold expected_select, preselected. rewrite Hsaved.
  inversion Hpath as [p m first rest Hpm Hf | p m Hpm Hf | Hpm Hc
                     | first rest Hpm Hg Hex Hf]; subst t2 chosen;
    rewrite Hpm.
  - rewrite Hf. cbn [head].
    rewrite with_placeholder_chosen in Hi |- * by reflexivity.
    rewrite initial_or_last_chosen in Hi. by injection Hi as <-.
  - rewrite Hf. cbn [head].
    rewrite with_placeholder_none in Hi |- * by reflexivity.
    rewrite initial_or_last_placeholder in Hi by reflexivity.
    by injection Hi as <-.
  - assert (Hnone : (if truthy (environ w !! "GENAI_API_URL")
                     then head (List.filter is_genai_agent
                                  (build_options (str_lower w) providers))
                     else None) = None).
    { destruct (truthy (environ w !! "GENAI_API_URL")); [| reflexivity].
      cbn [andb] in Hc. by rewrite (existsb_false_filter _ _ Hc). }
    rewrite Hnone.
    rewrite with_placeholder_none in Hi |- * by reflexivity.
    rewrite initial_or_last_placeholder in Hi by reflexivity.
    by injection Hi as <-.
  - rewrite Hg, Hf. cbn [head].
    rewrite with_placeholder_chosen in Hi |- * by reflexivity.
    rewrite initial_or_last_chosen in Hi. by injection Hi as <-.
Qed.

Lemma home_run_writes (w : world) (event : gmap string string)
    (user_id : string) (providers : list (string * model_info)) :
  event !! "tab" = Some "home" → event !! "user" = Some user_id →
  get_available_providers w = Ok providers →
  List.filter is_store_write (trace (app_home_opened_callback w event))
  = match saved_selection w user_id with
    | Some _ => []
    | None =>
        if truthy (environ w !! "GENAI_API_URL")
           && existsb is_genai_agent (build_options (str_lower w) providers)
           && truthy (environ w !! "REDIS_URL")
        then [ESetRedisUserState user_id "genai" "genai-agent"
                (environ w !! "REDIS_URL")]
        else []
    end.
Proof.
  intros Htab Huser Hreg.
  destruct (callback_home_summary w event user_id providers Htab Huser Hreg)
    as (t1 & state & t2 & chosen & o & Hr & Hpath & _ & _ & _ & _ & _
        & Hwrites & _).
  rewrite Hwrites, (saved_selection_state w user_id t1 state Hr).
  apply (choose_path_writes w user_id _ _ _ _ _ _ Hpath).
Qed.

(** *** Consequences on the saved selection *)

Lemma startswith_append (k s : string) : startswith (k +:+ s) k = true.
Proof.
  unfold startswith. induction k as [|c k IH]; simpl.
  - by destruct s.
  - destruct (Ascii.ascii_dec c c); [exact IH | contradiction].
Qed.

(** The value of a registry option starts with the registry key. *)
Lemma registry_key_option (lower : string → string)
    (providers : list (string * model_info))
    (model_name : string) (info : model_info) :
  (model_name, info) ∈ providers →
  ∃ o, o ∈ build_options lower providers ∧
       startswith (value o) model_name = true.
Proof.
  intros Hin. eexists. split.
  - unfold build_options. apply list_elem_of_fmap. exists (model_name, info).
    split; [reflexivity | exact Hin].
  - cbn [value]. apply startswith_append.
Qed.

(** X6: A saved model that is still a key of the registry is never stale: the
    published initial option is an option of that model, no placeholder is
    added and nothing is written. *)
Theorem saved_registry_model_never_stale (w : world)
    (event : gmap string string) (user_id url p m : string)
    (providers : list (string * model_info)) (info : model_info) :
  event !! "tab" = Some "home" → event !! "user" = Some user_id →
  get_available_providers w = Ok providers →
  environ w !! "REDIS_URL" = Some url → url ≠ "" →
  get_redis_user_state w user_id true (Some url) = Ok (Some p, Some m) →
  p ≠ "" → m ≠ "" →
  (m, info) ∈ providers →
  let run := app_home_opened_callback w event in
  ∃ sel,
    published_selects (trace run) = [sel] ∧
    startswith (value (initial_option sel)) m = true ∧
    options sel = build_options (str_lower w) providers ∧
    List.filter is_store_write (trace run) = [].
Proof.
  intros Htab Huser Hreg Hurl Hne Hget Hp Hm Hin run.
  pose proof (saved_selection_returned w user_id url p m Hurl Hne Hget Hp Hm)
    as Hsaved.
  destruct (registry_key_option (str_lower w) providers m info Hin)
    as (o & Ho & Hstart).
  destruct (existsb_filter _ _
              (existsb_elem_of (fun x => startswith (value x) m) _ o Ho Hstart))
    as (first & rest & Hf).
  destruct (filter_head_elem_of _ _ _ _ Hf) as [_ Hfirst].
  unfold run.
  rewrite (home_run_select w event user_id providers Htab Huser Hreg).
  rewrite (home_run_writes w event user_id providers Htab Huser Hreg).
  unfold expected_select, preselected. rewrite Hsaved, Hf. cbn [head].
  eexists. split; [reflexivity |]. cbn [initial_option options].
  auto.
Qed.

Lemma saved_registry_model_never_stale_witness :
  let run :=
    app_home_opened_callback Sample.remembers_gpt Sample.home_event in
  ∃ sel,
    published_selects (trace run) = [sel] ∧
    startswith (value (initial_option sel)) "gpt-4o" = true ∧
    options sel = build_options ascii_lower Sample.registry ∧
    List.filter is_store_write (trace run) = [].
Proof.
  apply (saved_registry_model_never_stale Sample.remembers_gpt
           Sample.home_event "U1" "redis://cache" "openai" "gpt-4o"
           Sample.registry {| name := "GPT-4o"; provider := "OpenAI" |});
    try first [reflexivity | discriminate].
  apply list_elem_of_here.
Defined.

(** X7: The saved provider is only tested for being non-empty: two stores that
    hold the same model under different providers give the same dropdown,
    and neither run writes. *)
Theorem saved_provider_not_consulted (w : world)
    (event : gmap string string) (user_id url p p' m : string)
    (providers : list (string * model_info)) :
  event !! "tab" = Some "home" → event !! "user" = Some user_id →
  get_available_providers w = Ok providers →
  environ w !! "REDIS_URL" = Some url → url ≠ "" →
  get_redis_user_state w user_id true (Some url) = Ok (Some p, Some m) →
  p ≠ "" → p' ≠ "" → m ≠ "" →
  let w' := with_get_redis_user_state (fun _ _ _ => Ok (Some p', Some m)) w in
  published_selects (trace (app_home_opened_callback w' event))
  = published_selects (trace (app_home_opened_callback w event)) ∧
  List.filter is_store_write (trace (app_home_opened_callback w' event)) = [] ∧
  List.filter is_store_write (trace (app_home_opened_callback w event)) = [].
Proof.
  intros Htab Huser Hreg Hurl Hne Hget Hp Hp' Hm w'.
  pose proof (saved_selection_returned w user_id url p m Hurl Hne Hget Hp Hm)
    as Hsaved.
  assert (Hsaved' : saved_selection w' user_id = Some (p', m))
    by (apply (saved_selection_returned w' user_id url p' m);
        first [assumption | reflexivity]).
  rewrite (home_run_select w event user_id providers Htab Huser Hreg).
  rewrite (home_run_select w' event user_id providers Htab Huser Hreg).
  rewrite (home_run_writes w event user_id providers Htab Huser Hreg).
  rewrite (home_run_writes w' event user_id providers Htab Huser Hreg).
  unfold expected_select, preselected. rewrite Hsaved, Hsaved'.
  repeat split.
Qed.

Lemma saved_provider_not_consulted_witness :
  let w' :=
    with_get_redis_user_state (fun _ _ _ => Ok (Some "azure", Some "gpt-4o"))
      Sample.remembers_gpt in
  published_selects (trace (app_home_opened_callback w' Sample.home_event))
  = published_selects
      (trace (app_home_opened_callback Sample.remembers_gpt Sample.home_event)) ∧
  List.filter is_store_write
    (trace (app_home_opened_callback w' Sample.home_event)) = [] ∧
  List.filter is_store_write
    (trace (app_home_opened_callback Sample.remembers_gpt Sample.home_event))
  = [].
Proof.
  apply (saved_provider_not_consulted Sample.remembers_gpt Sample.home_event
           "U1" "redis://cache" "openai" "azure" "gpt-4o" Sample.registry);
    first [reflexivity | discriminate].
Defined.

(** *** The placeholder *)

Lemma append_space_not_null (k s : string) : k +:+ " " +:+ s ≠ "null".
Proof.
  destruct k as [|c1 [|c2 [|c3 [|c4 [|c5 k]]]]]; simpl; discriminate.
Qed.

(** No option built from the registry carries the value ["null"]. *)
Lemma registry_option_not_null (lower : string → string)
    (providers : list (string * model_info)) (o : dropdown_option) :
  o ∈ build_options lower providers → value o ≠ "null".
Proof.
  unfold build_options. intros Hin.
  apply list_elem_of_fmap in Hin. destruct Hin as ([k info] & -> & _).
  cbn [value]. apply append_space_not_null.
Qed.

Lemma placeholder_value (genai_api_url : option string)
    (opts : list dropdown_option) :
  value (placeholder genai_api_url opts) = "null".
Proof. unfold placeholder. by destruct (_ && _). Qed.

Lemma preselected_listed (genai_api_url : option string)
    (saved : option (string * string)) (opts : list dropdown_option)
    (o : dropdown_option) :
  preselected genai_api_url saved opts = Some o → o ∈ opts.
Proof.
  unfold preselected.
  destruct saved as [[p m]|].
  - destruct (List.filter (fun x => startswith (value x) m) opts)
      as [|first rest] eqn:Hf; [discriminate |].
    intros [= <-]. by destruct (filter_head_elem_of _ _ _ _ Hf).
  - destruct (truthy genai_api_url); [| discriminate].
    destruct (List.filter is_genai_agent opts) as [|first rest] eqn:Hf;
      [discriminate |].
    intros [= <-]. by destruct (filter_head_elem_of _ _ _ _ Hf).
Qed.

(** X9: The value ["null"] marks the placeholder: the published initial option
    has it exactly when no registry option was pre-selected, and then the
    placeholder is the one extra entry at the end of the options; otherwise
    the options are exactly the registry's. *)
Theorem null_value_marks_placeholder (w : world)
    (event : gmap string string) (user_id : string)
    (providers : list (string * model_info)) :
  event !! "tab" = Some "home" → event !! "user" = Some user_id →
  get_available_providers w = Ok providers →
  let opts := build_options (str_lower w) providers in
  ∃ sel,
    published_selects (trace (app_home_opened_callback w event)) = [sel] ∧
    (value (initial_option sel) = "null" ↔
     options sel = opts ++ [initial_option sel]) ∧
    (value (initial_option sel) ≠ "null" ↔ options sel = opts) ∧
    (∀ o, o ∈ options sel → value o = "null" → o = initial_option sel).
Proof.
  intros Htab Huser Hreg opts.
  rewrite (home_run_select w event user_id providers Htab Huser Hreg).
  fold opts. eexists. split; [reflexivity |].
  unfold expected_select.
  destruct (preselected (environ w !! "GENAI_API_URL") (saved_selection w user_id) opts) as [o|] eqn:Hpre;
    cbn [initial_option options].
  - pose proof (preselected_listed _ _ opts o Hpre) as Hin.
    pose proof (registry_option_not_null _ providers o Hin) as Hnull.
    split; [| split].
    + split; [contradiction |]. intros Heq.
      apply (f_equal length) in Heq. rewrite length_app in Heq.
      simpl in Heq. lia.
    + split; auto.
    + intros o' Hin' Hnull'.
      by destruct (registry_option_not_null _ providers o' Hin').
  - pose proof (placeholder_value (environ w !! "GENAI_API_URL") opts) as Hval.
    split; [| split].
    + split; auto.
    + split; [contradiction |]. intros Heq.
      apply (f_equal length) in Heq. rewrite length_app in Heq.
      simpl in Heq. lia.
    + intros o' Hin' Hnull'. apply elem_of_app in Hin'.
      destruct Hin' as [Hin' | Hin'].
      * by destruct (registry_option_not_null _ providers o' Hin').
      * by apply list_elem_of_singleton in Hin'.
Qed.

Lemma null_value_marks_placeholder_witness :
  ∃ sel,
    published_selects
      (trace (app_home_opened_callback Sample.remembers_stale
                Sample.home_event)) = [sel] ∧
    (value (initial_option sel) = "null" ↔
     options sel = build_options ascii_lower Sample.registry ++ [initial_option sel]) ∧
    (value (initial_option sel) ≠ "null" ↔
     options sel = build_options ascii_lower Sample.registry) ∧
    (∀ o, o ∈ options sel → value o = "null" → o = initial_option sel).
Proof.
  apply (null_value_marks_placeholder Sample.remembers_stale Sample.home_event
           "U1" Sample.registry); reflexivity.
Defined.

(** X10: The label "Select a provider (GenAI used as fallback)" is shown to a
    user whose saved model matches no option, and to no other user: a user
    with nothing saved gets either the genai-agent option or the plain
    placeholder. *)
Theorem genai_fallback_label_means_stale (w : world)
    (event : gmap string string) (user_id : string)
    (providers : list (string * model_info)) (sel : static_select) :
  event !! "tab" = Some "home" → event !! "user" = Some user_id →
  get_available_providers w = Ok providers →
  sel ∈ published_selects (trace (app_home_opened_callback w event)) →
  initial_option sel = select_a_provider_genai →
  ∃ p m,
    saved_selection w user_id = Some (p, m) ∧
    List.filter (fun x => startswith (value x) m) (build_options (str_lower w) providers)
    = [] ∧
    truthy (environ w !! "GENAI_API_URL") = true ∧
    existsb is_genai_agent (build_options (str_lower w) providers) = true.
Proof.
  intros Htab Huser Hreg Hin Hinit.
  rewrite (home_run_select w event user_id providers Htab Huser Hreg) in Hin.
  apply list_elem_of_singleton in Hin. subst sel.
  unfold expected_select in Hinit.
  destruct (preselected (environ w !! "GENAI_API_URL") (saved_selection w user_id) (build_options (str_lower w) providers)) as [o|] eqn:Hpre;
    cbn [initial_option] in Hinit.
  - pose proof (preselected_listed _ _ _ o Hpre) as Ho.
    apply registry_option_not_null in Ho. by subst o.
  - unfold placeholder in Hinit.
    destruct (truthy (environ w !! "GENAI_API_URL")) eqn:Hg;
      [| discriminate].
    destruct (existsb is_genai_agent (build_options (str_lower w) providers)) eqn:Hex;
      [| discriminate].
    unfold preselected in Hpre. rewrite Hg in Hpre.
    destruct (saved_selection w user_id) as [[p m]|].
    + exists p, m.
      destruct (List.filter (fun x => startswith (value x) m)
                  (build_options (str_lower w) providers)); [auto | discriminate].
    + destruct (existsb_filter _ _ Hex) as (first & rest & Hf).
      rewrite Hf in Hpre. discriminate.
Qed.

Lemma genai_fallback_label_means_stale_witness :
  ∃ p m,
    saved_selection Sample.remembers_stale "U1" = Some (p, m) ∧
    List.filter (fun x => startswith (value x) m)
      (build_options ascii_lower Sample.registry) = [] ∧
    truthy (environ Sample.remembers_stale !! "GENAI_API_URL") = true ∧
    existsb is_genai_agent (build_options ascii_lower Sample.registry) = true.
Proof.
  apply (genai_fallback_label_means_stale Sample.remembers_stale
           Sample.home_event "U1" Sample.registry
           {| initial_option := select_a_provider_genai;
              options := build_options ascii_lower Sample.registry
                         ++ [select_a_provider_genai];
              action_id := "pick_a_provider" |});
    try reflexivity.
  apply list_elem_of_In. vm_compute. tauto.
Defined.

(** X11: Without a usable GenAI default ([GENAI_API_URL] unset or empty, or no
    genai-agent option), a user with nothing saved, or with a saved model
    that matches no option, gets the plain "Select a provider" placeholder
    as initial option, appended after the registry options; nothing is
    written to the store. *)
Theorem no_default_shows_plain_placeholder (w : world)
    (event : gmap string string) (user_id : string)
    (providers : list (string * model_info)) :
  event !! "tab" = Some "home" → event !! "user" = Some user_id →
  get_available_providers w = Ok providers →
  let opts := build_options (str_lower w) providers in
  truthy (environ w !! "GENAI_API_URL") && existsb is_genai_agent opts
  = false →
  (saved_selection w user_id = None ∨
   ∃ p m, saved_selection w user_id = Some (p, m) ∧
          List.filter (fun x => startswith (value x) m) opts = []) →
  let run := app_home_opened_callback w event in
  published_selects (trace run)
  = [ {| initial_option := select_a_provider;
         options := opts ++ [select_a_provider];
         action_id := "pick_a_provider" |} ] ∧
  List.filter is_store_write (trace run) = [].
Proof.
  intros Htab Huser Hreg opts Hc Hsaved run. unfold run.
  rewrite (home_run_select w event user_id providers Htab Huser Hreg).
  rewrite (home_run_writes w event user_id providers Htab Huser Hreg).
  fold opts. unfold expected_select, preselected, placeholder.
  rewrite Hc.
  destruct Hsaved as [-> | (p & m & -> & ->)]; [| by cbn [head]].
  cbn [andb]. split; [| reflexivity].
  destruct (truthy (environ w !! "GENAI_API_URL")); [| reflexivity].
  cbn [andb] in Hc. by rewrite (existsb_false_filter _ _ Hc).
Qed.

Lemma no_default_shows_plain_placeholder_witness :
  let run :=
    app_home_opened_callback Scenario.redis_only Sample.home_event in
  published_selects (trace run)
  = [ {| initial_option := select_a_provider;
         options := build_options ascii_lower Sample.registry ++ [select_a_provider];
         action_id := "pick_a_provider" |} ] ∧
  List.filter is_store_write (trace run) = [].
Proof.
  apply (no_default_shows_plain_placeholder Scenario.redis_only
           Sample.home_event "U1" Sample.registry);
    try reflexivity.
  left. reflexivity.
Defined.

(** X12: An empty registry is not an error: the dropdown holds the plain
    placeholder alone, selected; the view is published and nothing is
    written, whatever the store and the environment hold. *)
Theorem empty_registry_publishes_placeholder (w : world)
    (event : gmap string string) (user_id : string) :
  event !! "tab" = Some "home" → event !! "user" = Some user_id →
  get_available_providers w = Ok [] →
  let run := app_home_opened_callback w event in
  outcome run = Ok tt ∧
  published_selects (trace run)
  = [ {| initial_option := select_a_provider;
         options := [select_a_provider];
         action_id := "pick_a_provider" |} ] ∧
  List.filter is_store_write (trace run) = [].
Proof.
  intros Htab Huser Hreg run. unfold run.
  destruct (callback_home_summary w event user_id [] Htab Huser Hreg)
    as (_ & _ & _ & _ & _ & _ & _ & _ & Hout & _).
  split; [exact Hout |].
  rewrite (home_run_select w event user_id [] Htab Huser Hreg).
  rewrite (home_run_writes w event user_id [] Htab Huser Hreg).
  unfold expected_select, preselected, placeholder. cbn [build_options map].
  cbn [List.filter existsb head]. rewrite andb_false_r. cbn [andb app].
  split.
  - destruct (saved_selection w user_id) as [[p m]|]; [reflexivity |].
    by destruct (truthy (environ w !! "GENAI_API_URL")).
  - by destruct (saved_selection w user_id).
Qed.

Lemma empty_registry_publishes_placeholder_witness :
  let run :=
    app_home_opened_callback Scenario.empty_registry Sample.home_event in
  outcome run = Ok tt ∧
  published_selects (trace run)
  = [ {| initial_option := select_a_provider;
         options := [select_a_provider];
         action_id := "pick_a_provider" |} ] ∧
  List.filter is_store_write (trace run) = [].
Proof.
  apply (empty_registry_publishes_placeholder Scenario.empty_registry
           Sample.home_event "U1"); reflexivity.
Defined.

(** *** From one run to the next *)

(** X13: Once a run has saved the default, a later run against a store that
    returns what was saved, [("genai", "genai-agent")], shows the same
    dropdown and writes nothing more. *)
Theorem saved_default_is_restored (w : world) (event : gmap string string)
    (user_id : string) (providers : list (string * model_info)) :
  event !! "tab" = Some "home" → event !! "user" = Some user_id →
  get_available_providers w = Ok providers →
  ESetRedisUserState user_id "genai" "genai-agent" (environ w !! "REDIS_URL")
    ∈ trace (app_home_opened_callback w event) →
  let later :=
    with_get_redis_user_state
      (fun _ _ _ => Ok (Some "genai", Some "genai-agent")) w in
  published_selects (trace (app_home_opened_callback later event))
  = published_selects (trace (app_home_opened_callback w event)) ∧
  List.filter is_store_write (trace (app_home_opened_callback later event))
  = [].
Proof.
  intros Htab Huser Hreg Hin later.
  pose proof (elem_of_filter_true is_store_write _ _ Hin eq_refl) as Hw.
  rewrite (home_run_writes w event user_id providers Htab Huser Hreg) in Hw.
  destruct (saved_selection w user_id) as [[p m]|] eqn:Hsaved;
    [by apply elem_of_nil in Hw |].
  destruct (truthy (environ w !! "GENAI_API_URL")) eqn:Hg;
    [| by apply elem_of_nil in Hw].
  destruct (existsb is_genai_agent (build_options (str_lower w) providers)) eqn:Hex;
    [| by apply elem_of_nil in Hw].
  destruct (truthy (environ w !! "REDIS_URL")) eqn:Hurl;
    [| by apply elem_of_nil in Hw].
  assert (Hlater : saved_selection later user_id
                   = Some ("genai", "genai-agent")).
  { unfold saved_selection.
    change (environ later) with (environ w).
    rewrite (retrieve_returned later user_id _
               (Some "genai", Some "genai-agent") Hurl eq_refl).
    reflexivity. }
  rewrite (home_run_select w event user_id providers Htab Huser Hreg).
  rewrite (home_run_select later event user_id providers Htab Huser Hreg).
  rewrite (home_run_writes later event user_id providers Htab Huser Hreg).
  unfold expected_select, preselected.
  rewrite Hsaved, Hlater.
  change (environ later) with (environ w). rewrite Hg.
  split; reflexivity.
Qed.

Lemma saved_default_is_restored_witness :
  let later :=
    with_get_redis_user_state
      (fun _ _ _ => Ok (Some "genai", Some "genai-agent"))
      Sample.nothing_saved in
  published_selects (trace (app_home_opened_callback later Sample.home_event))
  = published_selects
      (trace (app_home_opened_callback Sample.nothing_saved Sample.home_event)) ∧
  List.filter is_store_write
    (trace (app_home_opened_callback later Sample.home_event)) = [].
Proof.
  apply (saved_default_is_restored Sample.nothing_saved Sample.home_event
           "U1" Sample.registry); try reflexivity.
  apply list_elem_of_In. vm_compute. tauto.
Defined.

(** *** A pair that fails the test of line 46 *)

Lemma choose_by_pair (w : world) (user_id : string)
    (redis_url : option string) (opts : list dropdown_option)
    (provider model provider' model' : option string) :
  provider_and_model provider model = provider_and_model provider' model' →
  choose_initial_option w user_id redis_url opts provider model
  = choose_initial_option w user_id redis_url opts provider' model'.
Proof. unfold choose_initial_option. by intros ->. Qed.

(** X8: A store that returns a pair with a missing or empty component (a model
    without provider, say) is treated in every respect like a store with
    nothing saved: the two runs have the same trace and the same outcome,
    even when the model alone would match an option. *)
Theorem partial_pair_is_nothing_saved (w : world)
    (event : gmap string string) (user_id : string)
    (providers : list (string * model_info)) (provider model : option string) :
  event !! "tab" = Some "home" → event !! "user" = Some user_id →
  get_available_providers w = Ok providers →
  get_redis_user_state w user_id true (environ w !! "REDIS_URL")
  = Ok (provider, model) →
  truthy provider && truthy model = false →
  app_home_opened_callback w event
  = app_home_opened_callback
      (with_get_redis_user_state (fun _ _ _ => Ok (None, None)) w) event.
Proof.
  intros Htab Huser Hreg Hget Hpair.
  set (w' := with_get_redis_user_state (fun _ _ _ => Ok (None, None)) w).
  set (redis_url := environ w !! "REDIS_URL") in *.
  set (opts := build_options (str_lower w) providers).
  apply provider_and_model_None in Hpair.
  destruct (choose_paths w user_id redis_url opts provider model)
    as (t2 & chosen & Hc & _).
  assert (Hc' : choose_initial_option w' user_id redis_url opts None None
                = (t2, Ok chosen)).
  { rewrite <- Hc. symmetry.
    apply (choose_by_pair w user_id redis_url opts provider model None None).
    rewrite Hpair. reflexivity. }
  destruct (initial_or_last_total w opts chosen) as (o & Hi).
  destruct (truthy redis_url) eqn:Hurl.
  - pose proof (retrieve_returned w user_id redis_url _ Hurl Hget) as Hr.
    assert (Hr' : retrieve_user_state w' user_id redis_url
                  = ([EGetRedisUserState user_id true redis_url],
                     Ok (None, None)))
      by (by apply retrieve_returned).
    rewrite (callback_home_run w event user_id providers Htab Huser Hreg
               _ t2 (provider, model) chosen o Hr Hc Hi).
    rewrite (callback_home_run w' event user_id providers Htab Huser Hreg
               _ t2 (None, None) chosen o Hr' Hc' Hi).
    reflexivity.
  - pose proof (retrieve_not_consulted w user_id redis_url Hurl) as Hr.
    pose proof (retrieve_not_consulted w' user_id redis_url Hurl) as Hr'.
    assert (Hc0 : choose_initial_option w user_id redis_url opts None None
                  = (t2, Ok chosen)) by exact Hc'.
    rewrite (callback_home_run w event user_id providers Htab Huser Hreg
               _ t2 (None, None) chosen o Hr Hc0 Hi).
    rewrite (callback_home_run w' event user_id providers Htab Huser Hreg
               _ t2 (None, None) chosen o Hr' Hc' Hi).
    reflexivity.
Qed.

Lemma partial_pair_is_nothing_saved_witness :
  app_home_opened_callback Scenario.model_without_provider Sample.home_event
  = app_home_opened_callback
      (with_get_redis_user_state (fun _ _ _ => Ok (None, None))
         Scenario.model_without_provider) Sample.home_event.
Proof.
  apply (partial_pair_is_nothing_saved Scenario.model_without_provider
           Sample.home_event "U1" Sample.registry None (Some "gpt-4o"));
    reflexivity.
Defined.

(** *** Error reports *)




(** *** Whom the calls are made for *)

(** X15: Every call to the store or to Slack is made for the user named by the
    event: the handler never reads, writes or publishes for anyone else. *)
Theorem calls_are_for_event_user (w : world) (event : gmap string string)
    (ev : effect) (u : string) :
  ev ∈ trace (app_home_opened_callback w event) →
  call_user ev = Some u →
  event !! "user" = Some u.
Proof.
  intros Hin Hcall.
  destruct (event !! "tab") as [tab|] eqn:Htab;
    [| rewrite (callback_no_tab w event Htab) in Hin;
       by apply elem_of_nil in Hin].
  destruct (decide (tab = "home")) as [-> | Hne];
    [| rewrite (callback_not_home w event tab Htab Hne) in Hin;
       by apply elem_of_nil in Hin].
  destruct (event !! "user") as [user_id|] eqn:Huser;
    [| rewrite (callback_no_user w event Htab Huser) in Hin;
       by apply elem_of_nil in Hin].
  destruct (get_available_providers w) as [providers|e] eqn:Hreg.
  - destruct (callback_home_summary w event user_id providers Htab Huser Hreg)
      as (t1 & state & t2 & chosen & o & Hr & Hpath & _ & _ & _ & Hpub
          & Hreads & Hwrites & _).
    rewrite (choose_path_writes w user_id _ _ _ _ _ _ Hpath) in Hwrites.
    destruct ev as [line | line | msg | | uid flag url | uid pn mn url | uid v];
      try discriminate; injection Hcall as ->.
    + pose proof (elem_of_filter_true is_store_read _ _ Hin eq_refl) as Hf.
      rewrite Hreads in Hf.
      destruct (truthy (environ w !! "REDIS_URL"));
        [| by apply elem_of_nil in Hf].
      apply list_elem_of_singleton in Hf. by injection Hf as -> _ _.
    + pose proof (elem_of_filter_true is_store_write _ _ Hin eq_refl) as Hf.
      rewrite Hwrites in Hf.
      destruct (provider_and_model state.1 state.2);
        [by apply elem_of_nil in Hf |].
      destruct (_ && _); [| by apply elem_of_nil in Hf].
      apply list_elem_of_singleton in Hf. by injection Hf as -> _ _ _.
    + pose proof (elem_of_filter_true is_publish _ _ Hin eq_refl) as Hf.
      rewrite Hpub in Hf.
      apply list_elem_of_singleton in Hf. by injection Hf as -> _.
  - rewrite (callback_registry_raises w event user_id e Htab Huser Hreg)
      in Hin.
    cbn [trace fst] in Hin.
    apply elem_of_cons in Hin. destruct Hin as [-> | Hin]; [discriminate |].
    apply list_elem_of_singleton in Hin. subst ev. discriminate.
Qed.

Lemma calls_are_for_event_user_witness :
  Sample.home_event !! "user" = Some "U1".
Proof.
  apply (calls_are_for_event_user Sample.nothing_saved Sample.home_event
           (ESetRedisUserState "U1" "genai" "genai-agent"
              (Some "redis://cache")) "U1").
  - apply list_elem_of_In. vm_compute. tauto.
  - reflexivity.
Defined.

(** *** The whole argument of the publish *)

Lemma home_run_publish (w : world) (event : gmap string string)
    (user_id : string) (providers : list (string * model_info)) :
  event !! "tab" = Some "home" → event !! "user" = Some user_id →
  get_available_providers w = Ok providers →
  let sel :=
    expected_select (environ w !! "GENAI_API_URL") (saved_selection w user_id)
      (build_options (str_lower w) providers) in
  List.filter is_publish (trace (app_home_opened_callback w event))
  = [EViewsPublish user_id (home_view (initial_option sel) (options sel))].
Proof.
  intros Htab Huser Hreg sel.
  pose proof (home_run_select w event user_id providers Htab Huser Hreg)
    as Hpolicy.
  destruct (callback_home_summary w event user_id providers Htab Huser Hreg)
    as (t1 & state & t2 & chosen & o & _ & _ & _ & _ & Hsel & Hpub & _).
  rewrite Hsel in Hpolicy. injection Hpolicy as Hpolicy.
  rewrite Hpub. fold sel in Hpolicy. rewrite <- Hpolicy. reflexivity.
Qed.

(** X5: On the home tab the handler calls [views_publish] once, for the user of
    the event, with the home view whose static_select is [expected_select]
    of the value of [GENAI_API_URL], the saved pair and the registry
    options: with a saved pair, the first option whose value starts with
    the saved model, or the placeholder when none does; without one, the
    first genai-agent option when [GENAI_API_URL] is truthy and there is
    one, or else the placeholder.  The call is the same whatever the write
    and the publish return or raise. *)
Theorem publish_call_determined (w : world) (event : gmap string string)
    (user_id : string) (providers : list (string * model_info)) :
  event !! "tab" = Some "home" → event !! "user" = Some user_id →
  get_available_providers w = Ok providers →
  let sel :=
    expected_select (environ w !! "GENAI_API_URL") (saved_selection w user_id)
      (build_options (str_lower w) providers) in
  List.filter is_publish (trace (app_home_opened_callback w event))
  = [EViewsPublish user_id (home_view (initial_option sel) (options sel))] ∧
  ∀ write publish,
    List.filter is_publish
      (trace (app_home_opened_callback
                (with_write_and_publish write publish w) event))
    = List.filter is_publish (trace (app_home_opened_callback w event)).
Proof.
  intros Htab Huser Hreg sel.
  pose proof (home_run_publish w event user_id providers Htab Huser Hreg)
    as Hw.
  split; [exact Hw |].
  intros write publish. rewrite Hw.
  apply (home_run_publish (with_write_and_publish write publish w) event
           user_id providers Htab Huser Hreg).
Qed.

Lemma publish_call_determined_witness :
  List.filter is_publish
    (trace (app_home_opened_callback Sample.remembers_stale Sample.home_event))
  = [EViewsPublish "U1"
       (home_view select_a_provider_genai
          [Sample.gpt_option; Sample.genai_option; select_a_provider_genai])] ∧
  ∀ write publish,
    List.filter is_publish
      (trace (app_home_opened_callback
                (with_write_and_publish write publish Sample.remembers_stale)
                Sample.home_event))
    = List.filter is_publish
        (trace (app_home_opened_callback Sample.remembers_stale
                  Sample.home_event)).
Proof.
  apply (publish_call_determined Sample.remembers_stale Sample.home_event "U1"
           Sample.registry); reflexivity.
Defined.

(** *** Option values identify registry entries *)

Lemma append_space_inj (k1 k2 s1 s2 : string) :
  contains_space k1 = false → contains_space k2 = false →
  k1 +:+ " " +:+ s1 = k2 +:+ " " +:+ s2 → k1 = k2.
Proof.
  revert k2. induction k1 as [|c1 k1 IH]; intros [|c2 k2]; simpl.
  - reflexivity.
  - intros _ H2 [= <- _]. simpl in H2. discriminate.
  - intros H1 _ [= -> _]. simpl in H1. discriminate.
  - intros H1 H2 [= <- Heq].
    destruct (Ascii.eqb c1 " "); [discriminate |].
    f_equal. by apply IH.
Qed.

Lemma option_values_build (lower : string → string)
    (providers : list (string * model_info)) :
  option_values (build_options lower providers)
  = map (fun item : string * model_info =>
           fst item +:+ " " +:+ lower (provider (snd item))) providers.
Proof.
  unfold option_values, build_options. rewrite map_map.
  apply map_ext. by intros [k info].
Qed.

(** X16: When the model names hold no space, distinct registry keys give
    distinct option values: the value picked in the dropdown identifies
    one registry entry. *)
Theorem option_values_distinct (lower : string → string)
    (providers : list (string * model_info)) :
  NoDup (registry_keys providers) →
  (∀ k, k ∈ registry_keys providers → contains_space k = false) →
  NoDup (option_values (build_options lower providers)).
Proof.
  rewrite option_values_build. unfold registry_keys.
  induction providers as [|[k info] providers IH]; intros Hnodup Hspace;
    [constructor |].
  cbn [map fst snd] in *. apply NoDup_cons in Hnodup.
  destruct Hnodup as [Hk Hnodup].
  apply NoDup_cons. split.
  - intros Hin. apply Hk.
    apply list_elem_of_fmap in Hin. destruct Hin as ([k' info'] & Heq & Hin').
    cbn [fst snd] in Heq.
    apply append_space_inj in Heq.
    + subst k'. apply list_elem_of_fmap. by exists (k, info').
    + apply Hspace. apply list_elem_of_here.
    + apply Hspace. apply list_elem_of_further.
      apply list_elem_of_fmap. by exists (k', info').
  - apply IH; [exact Hnodup |].
    intros k' Hin'. apply Hspace. by apply list_elem_of_further.
Qed.

Lemma option_values_distinct_witness :
  NoDup (option_values (build_options ascii_lower Sample.registry)).
Proof.
  apply (option_values_distinct ascii_lower Sample.registry).
  - apply NoDup_cons. split; [| apply NoDup_singleton].
    intros Hin. apply list_elem_of_singleton in Hin. discriminate.
  - intros k Hin. apply elem_of_cons in Hin.
    destruct Hin as [-> | Hin]; [reflexivity |].
    apply list_elem_of_singleton in Hin. subst k. reflexivity.
Defined.

(** *** Two more runs *)

Example default_saved_run :
  published_selects
    (trace (app_home_opened_callback Scenario.default_saved Sample.home_event))
  = [ {| initial_option := Sample.genai_option;
         options := [Sample.gpt_option; Sample.genai_option];
         action_id := "pick_a_provider" |} ].
Proof. reflexivity. Qed.
